(** * emca_backend: contact messages, projects and admin authentication

    A shallow embedding of [main.py] and [models.py].  Handlers are
    functions over an explicit store (the three SQL tables plus the upload
    directory); a raised [HTTPException] is the left summand of the result.
    The libraries the handlers call (python-jose, passlib, the file system,
    [strftime], Python's [int]) are modelled below or taken through the
    [Env] class. *)

From Stdlib Require Import ZArith Ascii String.
From Stdlib.Strings Require Import Byte.
From stdpp Require Import base option list gmap strings.

Local Open Scope Z_scope.

(** ** Python values used by the handlers *)

(** [datetime]: microseconds since the epoch (the resolution of Python's
    [datetime]); [timedelta]: a number of microseconds.  Both are
    unbounded here: that Python raises [OverflowError] on a date past the
    year 9999 is not modelled. *)
Definition datetime := Z.
Definition timedelta := Z.

Definition microseconds_per_second : Z := 1000000.

(** [timedelta(minutes=m)] *)
Definition timedelta_minutes (m : Z) : timedelta :=
  m * 60 * microseconds_per_second.

(** [a or b] on an optional [timedelta]: [None] and [timedelta(0)] are
    falsy. *)
Definition timedelta_or (a : option timedelta) (b : timedelta) : timedelta :=
  match a with
  | Some d => if d =? 0 then b else d
  | None => b
  end.

(** [calendar.timegm(d.utctimetuple())]: whole seconds, the microsecond
    field is dropped. *)
Definition timegm (d : datetime) : Z := d / microseconds_per_second.

(** [s.lstrip(c)], [s.rstrip(c)] and [s.strip(c)] for a one-character set. *)
Fixpoint lstrip (c : ascii) (s : string) : string :=
  match s with
  | String a s' => if Ascii.eqb a c then lstrip c s' else s
  | EmptyString => EmptyString
  end.

Definition rstrip (c : ascii) (s : string) : string :=
  String.rev (lstrip c (String.rev s)).

Definition strip (c : ascii) (s : string) : string :=
  rstrip c (lstrip c s).

(** ** HTTP errors *)

Record HTTPException := mkHTTPException { status_code : Z; detail : string }.

(** What the framework answers when a handler lets any other exception
    escape. *)
Definition internal_server_error : HTTPException :=
  mkHTTPException 500 "Internal Server Error".

Definition result (A : Type) : Type := (HTTPException + A)%type.

Definition raise {A : Type} (e : HTTPException) : result A := inl e.

#[global] Instance result_ret : MRet result := λ A a, inr a.

#[global] Instance result_bind : MBind result := λ A B k r,
  match r with
  | inl e => inl e
  | inr a => k a
  end.

#[global] Instance result_fmap : FMap result := λ A B f r,
  match r with
  | inl e => inl e
  | inr a => inr (f a)
  end.

(** Python's [int] on a string: the integer the string denotes, nothing
    where [int] raises [ValueError]. *)
Class Builtins := {
  int_str : string → option Z
}.

(** ** python-jose, as far as the handlers use it

    Tokens are kept symbolically: the compact serialisation is its header
    algorithm, its claim set and its signature, and a signature is the
    key, algorithm and claim set it was computed over (an ideal MAC: it
    verifies exactly under that key for that content).  A token that does
    not split into three segments holding a JSON header with an algorithm,
    a JSON object and a signature is [Malformed]. *)
Module jose.

(** Claim values on the Python side of [jwt.encode]. *)
Inductive pyval :=
| PStr (s : string)
| PInt (n : Z)
| PDatetime (d : datetime).

(** A Python [float] as [json.loads] yields one: a binary fraction
    [m * 2^e], an infinity or NaN. *)
Inductive float :=
| Finite (m e : Z)
| Infinity (negative : bool)
| NaN.

#[global] Instance float_eq_dec : EqDecision float.
Proof. solve_decision. Defined.

(** Claim values inside a token, as [json.loads] yields them: [JNum] is
    an [int] (a number written without fraction and exponent), [JFloat]
    any other number. *)
#[warnings="-register-all"]
Inductive json :=
| JNull
| JBool (b : bool)
| JNum (n : Z)
| JFloat (x : float)
| JStr (s : string)
| JArray (items : list json)
| JObject (members : list (string * json)).

#[global] Instance json_eq_dec : EqDecision json.
Proof.
  refine (fix go (x y : json) {struct x} : Decision (x = y) :=
    match x, y with
    | JNull, JNull => left _
    | JBool a, JBool b => cast_if (decide (a = b))
    | JNum a, JNum b => cast_if (decide (a = b))
    | JFloat a, JFloat b => cast_if (decide (a = b))
    | JStr a, JStr b => cast_if (decide (a = b))
    | JArray a, JArray b => cast_if (@list_eq_dec _ go a b)
    | JObject a, JObject b => cast_if (@list_eq_dec _ (@prod_eq_dec _ _ _ go) a b)
    | _, _ => right _
    end); clear go; abstract congruence.
Defined.

Record signature := mkSignature {
  sig_key : string;
  sig_alg : string;
  sig_msg : gmap string json
}.

#[global] Instance signature_eq_dec : EqDecision signature.
Proof. solve_decision. Defined.

Inductive jwt :=
| Malformed (raw : string)
| Compact (alg : string) (payload : gmap string json) (sig : signature).

(** The exceptions met in [jwt.decode]: [JWTError] with its two
    subclasses, and the three [int] raises. *)
Inductive exception :=
| JWTError_base
| ExpiredSignatureError
| JWTClaimsError
| ValueError
| TypeError
| OverflowError.

(** [isinstance(e, JWTError)], what [except JWTError] catches. *)
Definition JWTError (e : exception) : bool :=
  match e with
  | JWTError_base | ExpiredSignatureError | JWTClaimsError => true
  | ValueError | TypeError | OverflowError => false
  end.

(** The algorithms a string secret can sign with. *)
Definition supported_algorithms : list string := ["HS256"; "HS384"; "HS512"].

Definition time_claims : list string := ["exp"; "iat"; "nbf"].

(** Serialisation of one claim: a [datetime] under a time claim becomes
    its [timegm]; a [datetime] anywhere else is not JSON serialisable. *)
Definition to_json (k : string) (v : pyval) : option json :=
  match v with
  | PStr s => Some (JStr s)
  | PInt n => Some (JNum n)
  | PDatetime d => if bool_decide (k ∈ time_claims) then Some (JNum (timegm d)) else None
  end.

Definition sign (claims : gmap string json) (key alg : string) : signature :=
  mkSignature key alg claims.

(** [jwt.encode(claims, key, algorithm=alg)]; [None] when the library
    raises (unknown algorithm, unserialisable claim). *)
Definition encode (claims : gmap string pyval) (key alg : string) : option jwt :=
  if bool_decide (alg ∈ supported_algorithms) then
    if bool_decide (map_Forall (λ k v, is_Some (to_json k v)) claims) then
      let payload := map_imap to_json claims in
      Some (Compact alg payload (sign payload key alg))
    else None
  else None.

Section Validation.
Context `{Builtins}.

(** [int(v)]: an [int] as it is, a [bool] as 0 or 1, a [float] cut
    towards zero, a string through its numeral; [None], lists and dicts
    are a [TypeError], an infinity is an [OverflowError]. *)
Definition int (v : json) : exception + Z :=
  match v with
  | JNum n => inr n
  | JBool b => inr (if b then 1 else 0)
  | JFloat (Finite m e) => inr (if 0 <=? e then m * 2 ^ e else Z.quot m (2 ^ (- e)))
  | JFloat (Infinity _) => inl OverflowError
  | JFloat NaN => inl ValueError
  | JStr s => if int_str s is Some n then inr n else inl ValueError
  | JNull | JArray _ | JObject _ => inl TypeError
  end.

(** [try: int(v) / except ValueError: raise JWTClaimsError(...)] *)
Definition int_claim (v : json) : exception + Z :=
  match int v with
  | inl ValueError => inl JWTClaimsError
  | r => r
  end.

(** The values [int] takes without [TypeError] or [OverflowError]. *)
Definition converts (v : json) : bool :=
  match v with
  | JNull | JArray _ | JObject _ | JFloat (Infinity _) => false
  | JBool _ | JNum _ | JFloat _ | JStr _ => true
  end.

(** The checks [jwt.decode] runs on the claims when it is given no
    audience, issuer, subject or access token, in its order.  [iat]: an
    integer. *)
Definition validate_iat (payload : gmap string json) : option exception :=
  match payload !! "iat" with
  | None => None
  | Some v => if int_claim v is inl e then Some e else None
  end.

(** [nbf]: an integer not ahead of the clock. *)
Definition validate_nbf (payload : gmap string json) (now : datetime) : option exception :=
  match payload !! "nbf" with
  | None => None
  | Some v =>
    match int_claim v with
    | inl e => Some e
    | inr nbf => if timegm now <? nbf then Some JWTClaimsError else None
    end
  end.

(** [exp]: an integer not behind the clock. *)
Definition validate_exp (payload : gmap string json) (now : datetime) : option exception :=
  match payload !! "exp" with
  | None => None
  | Some v =>
    match int_claim v with
    | inl e => Some e
    | inr exp => if exp <? timegm now then Some ExpiredSignatureError else None
    end
  end.

(** [aud]: with no audience to compare with, any audience is invalid. *)
Definition validate_aud (payload : gmap string json) : option exception :=
  match payload !! "aud" with
  | None => None
  | Some _ => Some JWTClaimsError
  end.

(** [sub]: a string. *)
Definition validate_sub (payload : gmap string json) : option exception :=
  match payload !! "sub" with
  | None | Some (JStr _) => None
  | Some _ => Some JWTClaimsError
  end.

(** [jti]: a string. *)
Definition validate_jti (payload : gmap string json) : option exception :=
  match payload !! "jti" with
  | None | Some (JStr _) => None
  | Some _ => Some JWTClaimsError
  end.

(** [at_hash]: with no access token to hash, any is refused. *)
Definition validate_at_hash (payload : gmap string json) : option exception :=
  match payload !! "at_hash" with
  | None => None
  | Some _ => Some JWTClaimsError
  end.

(** The first check that raises. *)
Definition validate_claims (payload : gmap string json) (now : datetime)
  : option exception :=
  foldr (λ check rest, if check is Some e then Some e else rest) None
    [validate_iat payload; validate_nbf payload now; validate_exp payload now;
     validate_aud payload; validate_sub payload; validate_jti payload;
     validate_at_hash payload].

(** [jwt.decode(token, key, algorithms=algs)] read at clock [now]. *)
Definition decode (token : jwt) (key : string) (algorithms : list string)
  (now : datetime) : exception + gmap string json :=
  match token with
  | Malformed _ => inl JWTError_base
  | Compact alg payload sig =>
    if negb (bool_decide (alg ∈ algorithms)) then inl JWTError_base
    else if negb (bool_decide (sig = sign payload key alg)) then inl JWTError_base
    else match validate_claims payload now with
         | Some e => inl e
         | None => inr payload
         end
  end.

End Validation.

(** [jwt.get_unverified_claims(token)] *)
Definition get_unverified_claims (token : jwt) : option (gmap string json) :=
  match token with
  | Malformed _ => None
  | Compact _ payload _ => Some payload
  end.

(** One claim of a token, read without verification. *)
Definition claim (k : string) (token : jwt) : option json :=
  get_unverified_claims token ≫= (.!! k).

End jose.

Abbreviation jwt := jose.jwt.

(** ** models.py: the three tables *)

Module ContactMessage.
Record t := mk {
  id : Z;
  name : string;
  email : string;
  message : string;
  timestamp : datetime
}.
End ContactMessage.

Module Project.
Record t := mk {
  id : Z;
  title : string;
  description : string;
  image_url : string
}.
End Project.

Module Admin.
Record t := mk {
  id : Z;
  username : string;
  password_hash : string
}.
End Admin.

Abbreviation ContactMessage := ContactMessage.t.
Abbreviation Project := Project.t.
Abbreviation Admin := Admin.t.

#[global] Instance Project_eq_dec : EqDecision Project.
Proof. solve_decision. Defined.

(** The database behind [SessionLocal]: each table is the list of its
    rows in rowid order. *)
Record DB := mkDB {
  contact_messages : list ContactMessage;
  projects : list Project;
  admins : list Admin
}.

(** The key SQLite gives a new row of an [INTEGER PRIMARY KEY] table: one
    more than the largest key in use, 1 in an empty table (keys are
    unbounded here; SQLite's are 64-bit). *)
Definition next_rowid (ids : list Z) : Z :=
  match ids with
  | [] => 1
  | i :: ids => 1 + foldr Z.max i ids
  end.

(** [query.first()] *)
Definition first {A : Type} (rows : list A) : option A := head rows.

(** The integers SQLite stores and its driver binds: signed, 64 bits. *)
Definition sqlite_integer (n : Z) : bool := (- 2 ^ 63 <=? n) && (n <? 2 ^ 63).

(** ** The environment of the process

    [SECRET_KEY] comes from the process environment; [pwd_context] is
    passlib's bcrypt context (hashing draws a salt); [open_wb_write] is
    [open(path, "wb")] followed by one [write] on the upload directory,
    with the flag telling whether it went through; [strftime] is
    [datetime.strftime] at the format of [get_messages]; [builtins] is
    the Python the libraries run on. *)
Class Env := {
  builtins :: Builtins;
  SECRET_KEY : string;
  pwd_context_hash : string → string → string;
  pwd_context_verify : string → string → bool;
  Disk : Type;
  open_wb_write : string → list byte → Disk → Disk * bool;
  strftime : datetime → string
}.

Definition ALGORITHM : string := "HS256".
Definition ACCESS_TOKEN_EXPIRE_MINUTES : Z := 30.
Definition UPLOAD_DIR : string := "uploads".

(** The state a request runs against. *)
Record Store `{Env} := mkStore {
  db : DB;
  disk : Disk
}.

Arguments mkStore {_} _ _.

(** ** Request bodies *)

Module ContactForm.
Record t := mk {
  name : string;
  email : string;
  message : string
}.
End ContactForm.

(** Modelled from the spec: [AdminCreate], the body of POST
    /register-admin/, is used by [register_admin] but declared nowhere in
    the sources; the interface table gives it the fields [{username,
    password}]. *)
Module AdminCreate.
Record t := mk {
  username : string;
  password : string
}.
End AdminCreate.

Module ProjectSchema.
Record t := mk {
  title : string;
  description : string;
  image_url : string
}.
End ProjectSchema.

(** Starlette's [UploadFile]: the part's file name, its declared content
    type (absent when the part has no such header) and its bytes. *)
Module UploadFile.
Record t := mk {
  filename : string;
  content_type : option string;
  read : list byte
}.
End UploadFile.

Abbreviation ContactForm := ContactForm.t.
Abbreviation AdminCreate := AdminCreate.t.
Abbreviation ProjectSchema := ProjectSchema.t.
Abbreviation UploadFile := UploadFile.t.

(** [c in s] for a character *)
Fixpoint occurs (c : ascii) (s : string) : bool :=
  match s with
  | String a s' => Ascii.eqb a c || occurs c s'
  | EmptyString => false
  end.

(** A file name without path separator (slash, or backslash, character
    92): "uploads/" followed by such a name is an entry of the upload
    directory.  The handlers take any name;
    with a separator in it the path can leave the directory and name
    another file of the process, the database file included, and what an
    upload does to the tables then is not modelled. *)
Definition plain_filename (filename : string) : bool :=
  negb (occurs "/" filename) && negb (occurs (ascii_of_nat 92) filename).

(** ** Session operations: what [add]/[delete]/attribute writes followed
    by [commit] do to a table *)

(** [db.query(Project).filter(Project.id == project_id).first()].  The
    driver refuses to bind an id outside 64 bits ([OverflowError], which
    nothing catches).  A stored key is a 64-bit integer, so such an id
    matches no row; keys being unbounded in the model, the rows are
    looked at first. *)
Definition query_Project (project_id : Z) (d : DB) : result (option Project) :=
  match first (filter (λ p, Project.id p = project_id) (projects d)) with
  | Some p => mret (Some p)
  | None =>
    if sqlite_integer project_id then mret None else raise internal_server_error
  end.

Definition add_ContactMessage (name email message : string) (timestamp : datetime)
  (d : DB) : DB :=
  let row := ContactMessage.mk (next_rowid (ContactMessage.id <$> contact_messages d))
               name email message timestamp in
  mkDB (contact_messages d ++ [row]) (projects d) (admins d).

(** The inserted row comes back with its key. *)
Definition add_Project (title description image_url : string) (d : DB) : Project * DB :=
  let row := Project.mk (next_rowid (Project.id <$> projects d))
               title description image_url in
  (row, mkDB (contact_messages d) (projects d ++ [row]) (admins d)).

(** [username] is declared [unique]: the insert is refused when the name
    is taken. *)
Definition add_Admin (username password_hash : string) (d : DB) : option DB :=
  if bool_decide (username ∈ Admin.username <$> admins d) then None
  else
    let row := Admin.mk (next_rowid (Admin.id <$> admins d)) username password_hash in
    Some (mkDB (contact_messages d) (projects d) (admins d ++ [row])).

(** UPDATE projects SET ... WHERE id = [project_id], on one row and on
    the table *)
Definition set_Project (project_id : Z) (title description image_url : string)
  (p : Project) : Project :=
  if decide (Project.id p = project_id)
  then Project.mk (Project.id p) title description image_url
  else p.

Definition update_Project (project_id : Z) (title description image_url : string)
  (d : DB) : DB :=
  mkDB (contact_messages d)
       (set_Project project_id title description image_url <$> projects d)
       (admins d).

(** DELETE FROM projects WHERE id = [project_id] *)
Definition delete_Project (project_id : Z) (d : DB) : DB :=
  mkDB (contact_messages d)
       (filter (λ p, Project.id p ≠ project_id) (projects d))
       (admins d).

(** ** JSON bodies of the answers *)

Module MessageOut.
Record t := mk {
  id : Z;
  name : string;
  email : string;
  message : string;
  timestamp : string
}.
End MessageOut.

Module Token.
Record t := mk {
  access_token : jwt;
  token_type : string
}.
End Token.

(** Truth value of [payload.get("sub")]. *)
Definition truthy (v : option jose.json) : bool :=
  match v with
  | None | Some jose.JNull => false
  | Some (jose.JBool b) => b
  | Some (jose.JNum n) => negb (n =? 0)
  | Some (jose.JFloat (jose.Finite m _)) => negb (m =? 0)
  | Some (jose.JFloat _) => true
  | Some (jose.JStr s) => negb (String.eqb s "")
  | Some (jose.JArray items) => negb (bool_decide (items = []))
  | Some (jose.JObject members) => negb (bool_decide (members = []))
  end.

(** ** main.py *)

Section Handlers.
Context `{Env}.

(** *** Authentication helpers *)

Definition authenticate_admin (username password : string) (d : DB) : option Admin :=
  match first (filter (λ a, Admin.username a = username) (admins d)) with
  | None => None
  | Some admin =>
    if negb (pwd_context_verify password (Admin.password_hash admin)) then None
    else Some admin
  end.

(** [None]: [jwt.encode] raised. *)
Definition create_access_token (data : gmap string jose.pyval)
  (expires_delta : option timedelta) (utcnow : datetime) : option jwt :=
  let to_encode := data in
  let expire := utcnow + timedelta_or expires_delta (timedelta_minutes 15) in
  let to_encode := <["exp" := jose.PDatetime expire]> to_encode in
  jose.encode to_encode SECRET_KEY ALGORITHM.

Definition invalid_authentication : HTTPException :=
  mkHTTPException 401 "Invalid authentication".

Definition get_current_admin (token : jwt) (d : DB) (utcnow : datetime) : result Admin :=
  match jose.decode token SECRET_KEY [ALGORITHM] utcnow with
  | inl e =>
    (* except JWTError *)
    if jose.JWTError e then raise invalid_authentication else raise internal_server_error
  | inr payload =>
    let username := payload !! "sub" in
    if negb (truthy username) then raise invalid_authentication
    else
      match first (filter (λ a, Some (jose.JStr (Admin.username a)) = username)
                          (admins d)) with
      | None => raise invalid_authentication
      | Some admin => mret admin
      end
  end.

(** The ways a token fails to name an administrator of [d] at clock
    [utcnow]. *)
Inductive resolution_fails (d : DB) (utcnow : datetime) : jwt → Prop :=
| malformed_token raw :
    resolution_fails d utcnow (jose.Malformed raw)
| algorithm_not_allowed alg payload sig :
    alg ≠ ALGORITHM →
    resolution_fails d utcnow (jose.Compact alg payload sig)
| invalid_signature alg payload sig :
    sig ≠ jose.sign payload SECRET_KEY alg →
    resolution_fails d utcnow (jose.Compact alg payload sig)
| expired_token alg payload sig v e :
    payload !! "exp" = Some v → jose.int v = inr e → e < timegm utcnow →
    resolution_fails d utcnow (jose.Compact alg payload sig)
| rejected_claims alg payload sig e :
    jose.validate_claims payload utcnow = Some e →
    resolution_fails d utcnow (jose.Compact alg payload sig)
| no_subject alg payload sig :
    payload !! "sub" = None →
    resolution_fails d utcnow (jose.Compact alg payload sig)
| empty_subject alg payload sig :
    payload !! "sub" = Some (jose.JStr "") →
    resolution_fails d utcnow (jose.Compact alg payload sig)
| unknown_subject alg payload sig u :
    payload !! "sub" = Some (jose.JStr u) → u ∉ Admin.username <$> admins d →
    resolution_fails d utcnow (jose.Compact alg payload sig).

(** *** Contact form *)

Definition save_message (contact : ContactForm) (d : DB) (utcnow : datetime)
  : gmap string string * DB :=
  let d' := add_ContactMessage (ContactForm.name contact) (ContactForm.email contact)
              (ContactForm.message contact) utcnow d in
  ({["message" := "Message received"]}, d').

Definition get_messages (d : DB) (admin : Admin) : list MessageOut.t :=
  let messages := contact_messages d in
  (λ msg, MessageOut.mk (ContactMessage.id msg) (ContactMessage.name msg)
            (ContactMessage.email msg) (ContactMessage.message msg)
            (strftime (ContactMessage.timestamp msg))) <$> messages.

(** *** Admin registration and login *)

Definition register_admin (admin_data : AdminCreate) (d : DB) (salt : string)
  : result (gmap string string) * DB :=
  match first (filter (λ a, Admin.username a = AdminCreate.username admin_data)
                      (admins d)) with
  | Some _ => (raise (mkHTTPException 400 "Admin already exists"), d)
  | None =>
    let hashed_password := pwd_context_hash salt (AdminCreate.password admin_data) in
    match add_Admin (AdminCreate.username admin_data) hashed_password d with
    | None => (raise internal_server_error, d)
    | Some d' => (mret {["message" := "Admin created successfully"]}, d')
    end
  end.

Definition login_admin (username password : string) (d : DB) (utcnow : datetime)
  : result Token.t :=
  match authenticate_admin username password d with
  | None => raise (mkHTTPException 401 "Invalid credentials")
  | Some admin =>
    match create_access_token {["sub" := jose.PStr (Admin.username admin)]}
            (Some (timedelta_minutes ACCESS_TOKEN_EXPIRE_MINUTES)) utcnow with
    | None => raise internal_server_error
    | Some access_token => mret (Token.mk access_token "bearer")
    end
  end.

(** *** Projects *)

(** The local [allowed_types] of [create_project]. *)
Definition allowed_types : gset string := {["image/png"; "image/jpeg"; "image/jpg"]}.

(** [content_type not in types] is true for a part without content type. *)
Definition not_in (content_type : option string) (types : gset string) : bool :=
  match content_type with
  | Some c => negb (bool_decide (c ∈ types))
  | None => true
  end.

(** [base_url] is [str(request.base_url)].  The file is written into
    [disk], which holds the upload directory; see [plain_filename] for the
    file names whose path stays there. *)
Definition create_project (title description : string) (image : UploadFile)
  (base_url : string) (s : Store) : result Project * Store :=
  if not_in (UploadFile.content_type image) allowed_types then
    (raise (mkHTTPException 400 "Invalid image format"), s)
  else
    let file_location := UPLOAD_DIR +:+ "/" +:+ UploadFile.filename image in
    let '(disk', written) :=
      open_wb_write file_location (UploadFile.read image) (disk s) in
    if negb written then (raise internal_server_error, mkStore (db s) disk')
    else
      let base_url := strip "/" base_url in
      let image_url := base_url +:+ "/uploads/" +:+ UploadFile.filename image in
      let '(new_project, d') := add_Project title description image_url (db s) in
      (* db.refresh(new_project): the row is read back by its key *)
      match first (filter (λ p, Project.id p = Project.id new_project) (projects d')) with
      | None => (raise internal_server_error, mkStore d' disk')
      | Some new_project => (mret new_project, mkStore d' disk')
      end.

Definition get_projects (d : DB) : list Project := projects d.

Definition project_not_found : HTTPException :=
  mkHTTPException 404 "Project not found".

Definition get_project (project_id : Z) (d : DB) : result Project :=
  project ← query_Project project_id d;
  match project with
  | None => raise project_not_found
  | Some project => mret project
  end.

Definition update_project (project_id : Z) (project : ProjectSchema) (d : DB)
  (admin : Admin) : result Project * DB :=
  match query_Project project_id d with
  | inl e => (raise e, d)
  | inr None => (raise project_not_found, d)
  | inr (Some db_project) =>
    (* db.commit(): the UPDATE binds the key of the row *)
    if negb (sqlite_integer (Project.id db_project)) then (raise internal_server_error, d)
    else
      let d' := update_Project (Project.id db_project) (ProjectSchema.title project)
                  (ProjectSchema.description project) (ProjectSchema.image_url project) d in
      (* db.refresh(db_project) *)
      match first (filter (λ p, Project.id p = Project.id db_project) (projects d')) with
      | None => (raise internal_server_error, d')
      | Some db_project => (mret db_project, d')
      end
  end.

Definition delete_project (project_id : Z) (d : DB) (admin : Admin)
  : result (gmap string string) * DB :=
  match query_Project project_id d with
  | inl e => (raise e, d)
  | inr None => (raise project_not_found, d)
  | inr (Some db_project) =>
    (* db.commit(): the DELETE binds the key of the row *)
    if negb (sqlite_integer (Project.id db_project)) then (raise internal_server_error, d)
    else
      let d' := delete_Project (Project.id db_project) d in
      (mret {["message" := "Project deleted successfully"]}, d')
  end.

Definition read_root : gmap string string :=
  {["message" := "FastAPI on cPanel is working!"]}.

(** *** The application: routes and their dependencies *)

Inductive request :=
| GET_root
| POST_contact (contact : ContactForm)
| GET_contact (authorization : option jwt)
| POST_register_admin (admin_data : AdminCreate)
| POST_token (username password : string)
| POST_projects (title description : string) (image : UploadFile) (base_url : string)
| GET_projects
| GET_project (project_id : Z)
| PUT_project (project_id : Z) (project : ProjectSchema) (authorization : option jwt)
| DELETE_project (project_id : Z) (authorization : option jwt).

Inductive response :=
| JSON_dict (body : gmap string string)
| JSON_messages (body : list MessageOut.t)
| JSON_token (body : Token.t)
| JSON_project (body : Project)
| JSON_projects (body : list Project).

(** [OAuth2PasswordBearer]: the bearer token of the Authorization header,
    or 401 when there is none. *)
Definition oauth2_scheme (authorization : option jwt) : result jwt :=
  match authorization with
  | None => raise (mkHTTPException 401 "Not authenticated")
  | Some token => mret token
  end.

(** What the framework answers when a required form field is missing; a
    field submitted empty counts as missing.  (The body names the fields.) *)
Definition unprocessable_entity : HTTPException :=
  mkHTTPException 422 "Unprocessable Entity".

Definition empty (field : string) : bool := String.eqb field "".

(** [Depends(get_current_admin)] *)
Definition depends_get_current_admin (authorization : option jwt) (d : DB)
  (utcnow : datetime) : result Admin :=
  token ← oauth2_scheme authorization; get_current_admin token d utcnow.

(** One request served at clock [utcnow]; [salt] is the salt bcrypt would
    draw. *)
Definition app (req : request) (s : Store) (utcnow : datetime) (salt : string)
  : result response * Store :=
  match req with
  | GET_root => (mret (JSON_dict read_root), s)
  | POST_contact contact =>
    let '(body, d') := save_message contact (db s) utcnow in
    (mret (JSON_dict body), mkStore d' (disk s))
  | GET_contact authorization =>
    (admin ← depends_get_current_admin authorization (db s) utcnow;
     mret (JSON_messages (get_messages (db s) admin)), s)
  | POST_register_admin admin_data =>
    let '(r, d') := register_admin admin_data (db s) salt in
    (JSON_dict <$> r, mkStore d' (disk s))
  | POST_token username password =>
    if empty username || empty password then (raise unprocessable_entity, s)
    else (JSON_token <$> login_admin username password (db s) utcnow, s)
  | POST_projects title description image base_url =>
    if empty title || empty description then (raise unprocessable_entity, s)
    else
      let '(r, s') := create_project title description image base_url s in
      (JSON_project <$> r, s')
  | GET_projects => (mret (JSON_projects (get_projects (db s))), s)
  | GET_project project_id => (JSON_project <$> get_project project_id (db s), s)
  | PUT_project project_id project authorization =>
    match depends_get_current_admin authorization (db s) utcnow with
    | inl e => (raise e, s)
    | inr admin =>
      let '(r, d') := update_project project_id project (db s) admin in
      (JSON_project <$> r, mkStore d' (disk s))
    end
  | DELETE_project project_id authorization =>
    match depends_get_current_admin authorization (db s) utcnow with
    | inl e => (raise e, s)
    | inr admin =>
      let '(r, d') := delete_project project_id (db s) admin in
      (JSON_dict <$> r, mkStore d' (disk s))
    end
  end.

(** A run of the service: requests served one after the other. *)
Fixpoint serve (reqs : list (request * datetime * string)) (s : Store) : Store :=
  match reqs with
  | [] => s
  | (req, utcnow, salt) :: reqs => serve reqs (snd (app req s utcnow salt))
  end.

(** The requests whose upload, if they carry one, has a plain file name. *)
Definition inside_uploads (req : request) : bool :=
  match req with
  | POST_projects _ _ image _ => plain_filename (UploadFile.filename image)
  | _ => true
  end.

End Handlers.

(** ** A concrete environment to run the handlers in

    The upload directory is a map from path to content where every write
    goes through; the password context keeps the secret behind a marker. *)
Fixpoint digits (s : string) (acc : Z) : option Z :=
  match s with
  | EmptyString => Some acc
  | String a s' =>
    let n := Z.of_nat (nat_of_ascii a) - 48 in
    if (0 <=? n) && (n <=? 9) then digits s' (10 * acc + n) else None
  end.

(** Decimal numerals with an optional sign, for the example environment. *)
Definition decimal (s : string) : option Z :=
  match s with
  | EmptyString => None
  | String "-" (String a s') => Z.opp <$> digits (String a s') 0
  | _ => digits s 0
  end.

Definition example_env : Env := {|
  builtins := {| int_str := decimal |};
  SECRET_KEY := "fallback_secret_key";
  pwd_context_hash := λ salt secret, "$2b$" +:+ salt +:+ "$" +:+ secret;
  pwd_context_verify := λ secret hash,
    bool_decide (hash = "$2b$" +:+ String.substring 4 4 hash +:+ "$" +:+ secret);
  Disk := gmap string (list byte);
  open_wb_write := λ path content files, (<[path := content]> files, true);
  strftime := λ d, ""
|}.

(** Sample data: one administrator, one project, one contact message, an
    empty upload directory; three uploads; the token a login at clock 0
    yields, the same token with another subject under the old signature,
    and a token whose claim set has no subject. *)
Definition example_admin : Admin := Admin.mk 1 "admin" "$2b$salt$secret".

Definition example_project : Project :=
  Project.mk 1 "Bridge" "A footbridge" "http://testserver/uploads/bridge.png".

Definition example_message : ContactMessage :=
  ContactMessage.mk 1 "Ann" "ann@example.org" "Hello" 1000000.

Definition example_db : DB := mkDB [example_message] [example_project] [example_admin].

Definition example_other_project : Project :=
  Project.mk 2 "Tower" "A tower" "http://testserver/uploads/tower.png".

Definition example_db2 : DB :=
  mkDB [example_message] [example_project; example_other_project] [example_admin].

Definition example_store : @Store example_env := @mkStore example_env example_db ∅.

Definition example_png : UploadFile := UploadFile.mk "plan.png" (Some "image/png") [].
Definition example_txt : UploadFile := UploadFile.mk "notes.txt" (Some "text/plain") [].

Definition example_claims : gmap string jose.json :=
  <["exp" := jose.JNum 1800]> {["sub" := jose.JStr "admin"]}.

Definition example_token : jwt :=
  jose.Compact "HS256" example_claims
    (jose.sign example_claims "fallback_secret_key" "HS256").

Definition example_tampered_token : jwt :=
  jose.Compact "HS256" (<["sub" := jose.JStr "root"]> example_claims)
    (jose.sign example_claims "fallback_secret_key" "HS256").

Definition example_anonymous_token : jwt :=
  jose.Compact "HS256" {["exp" := jose.JNum 1800]}
    (jose.sign {["exp" := jose.JNum 1800]} "fallback_secret_key" "HS256").

(** A token signed under the key, without subject, whose expiry is
    [null]; an upload whose file name leads out of the upload directory,
    to the file of [DATABASE_URL]. *)
Definition example_null_expiry_token : jwt :=
  jose.Compact "HS256" {["exp" := jose.JNull]}
    (jose.sign {["exp" := jose.JNull]} "fallback_secret_key" "HS256").

Definition example_traversal : UploadFile :=
  UploadFile.mk "../emca.db" (Some "image/png") [x89; x50; x4e; x47].

(** * Properties *)

(** ** Queries and keys *)

Section Queries.
Context {A : Type} (P : A → Prop) `{!∀ x, Decision (P x)}.

Lemma first_filter_Some (rows : list A) (x : A) :
  first (filter P rows) = Some x → x ∈ rows ∧ P x.
Proof.
  unfold first. intros Hx. apply head_Some_elem_of in Hx.
  apply list_elem_of_filter in Hx. tauto.
Qed.

Lemma first_filter_None (rows : list A) :
  first (filter P rows) = None ↔ ∀ x, x ∈ rows → ¬ P x.
Proof.
  unfold first. rewrite head_None. split.
  - intros Hnil x Hx HP. eapply filter_nil_not_elem_of; eauto.
  - intros Hall. induction rows as [|y rows IH]; [done|].
    rewrite filter_cons_False by (apply Hall; left).
    apply IH. intros x Hx. apply Hall. by right.
Qed.

Lemma first_filter_is_Some (rows : list A) (x : A) :
  x ∈ rows → P x → is_Some (first (filter P rows)).
Proof.
  intros Hx HP. destruct (first (filter P rows)) eqn:E; [eauto|].
  rewrite first_filter_None in E. by destruct (E x Hx).
Qed.

End Queries.

Lemma foldr_max_bound (i j : Z) (ids : list Z) :
  i = j ∨ i ∈ ids → i ≤ foldr Z.max j ids.
Proof.
  induction ids as [|k ids IH]; simpl.
  - intros [->|?%elem_of_nil]; [lia|done].
  - intros [->|[->|Hi]%elem_of_cons]; [|lia|].
    + specialize (IH (or_introl eq_refl)). lia.
    + specialize (IH (or_intror Hi)). lia.
Qed.

Lemma next_rowid_fresh (ids : list Z) (i : Z) : i ∈ ids → i < next_rowid ids.
Proof.
  destruct ids as [|j ids]; [by intros ?%elem_of_nil|].
  intros Hi%elem_of_cons. pose proof (foldr_max_bound i j ids Hi). simpl. lia.
Qed.

Lemma query_Project_Some (project_id : Z) (d : DB) (p : Project) :
  first (filter (λ p, Project.id p = project_id) (projects d)) = Some p →
  query_Project project_id d = inr (Some p).
Proof. intros Hfirst. unfold query_Project. by rewrite Hfirst. Qed.

Lemma query_Project_None (project_id : Z) (d : DB) :
  first (filter (λ p, Project.id p = project_id) (projects d)) = None →
  query_Project project_id d
  = if sqlite_integer project_id then inr None else inl internal_server_error.
Proof. intros Hfirst. unfold query_Project. by rewrite Hfirst. Qed.

(** On a table whose keys are 64-bit integers the look-up is the
    driver's: the id is bound first, then the rows are searched. *)
Lemma query_Project_bind_first (project_id : Z) (d : DB) :
  (∀ p, p ∈ projects d → sqlite_integer (Project.id p) = true) →
  query_Project project_id d
  = if sqlite_integer project_id
    then inr (first (filter (λ p, Project.id p = project_id) (projects d)))
    else inl internal_server_error.
Proof.
  intros Hkeys. unfold query_Project.
  destruct (first _) as [p|] eqn:Hfirst; [|done].
  apply first_filter_Some in Hfirst as [Hin <-]. by rewrite (Hkeys p Hin).
Qed.

Lemma get_project_Some (project_id : Z) (d : DB) (p : Project) :
  first (filter (λ p, Project.id p = project_id) (projects d)) = Some p →
  get_project project_id d = inr p.
Proof. intros Hfirst. unfold get_project. by rewrite (query_Project_Some _ _ _ Hfirst). Qed.

Lemma get_project_None (project_id : Z) (d : DB) :
  first (filter (λ p, Project.id p = project_id) (projects d)) = None →
  get_project project_id d
  = if sqlite_integer project_id then inl project_not_found
    else inl internal_server_error.
Proof.
  intros Hfirst. unfold get_project. rewrite (query_Project_None _ _ Hfirst).
  by destruct (sqlite_integer project_id).
Qed.

(** ** Strings *)

Lemma app_String (a : ascii) (s1 s2 : string) :
  String a s1 +:+ s2 = String a (s1 +:+ s2).
Proof. done. Qed.

Lemma app_empty_r (s : string) : s +:+ "" = s.
Proof. induction s as [|a s IH]; [done|]. by rewrite app_String, IH. Qed.

Lemma app_assoc (s1 s2 s3 : string) : (s1 +:+ s2) +:+ s3 = s1 +:+ (s2 +:+ s3).
Proof. induction s1 as [|a s1 IH]; [done|]. by rewrite !app_String, IH. Qed.

Lemma rev_app_app (s1 s2 acc : string) :
  String.rev_app (s1 +:+ s2) acc = String.rev_app s2 (String.rev_app s1 acc).
Proof.
  revert acc. induction s1 as [|a s1 IH]; intros acc; [done|].
  exact (IH (String a acc)).
Qed.

Lemma rev_app_rev_app (s acc t : string) :
  String.rev_app (String.rev_app s acc) t = String.rev_app acc (s +:+ t).
Proof.
  revert acc. induction s as [|a s IH]; intros acc; [done|].
  exact (IH (String a acc)).
Qed.

Lemma rev_involutive (s : string) : String.rev (String.rev s) = s.
Proof. unfold String.rev. rewrite rev_app_rev_app. simpl. apply app_empty_r. Qed.



Section Properties.
Context `{Env}.

(** ** Token resolution *)

Lemma validate_claims_None (payload : gmap string jose.json) (utcnow : datetime) :
  jose.validate_claims payload utcnow = None ↔
  jose.validate_iat payload = None ∧ jose.validate_nbf payload utcnow = None ∧
  jose.validate_exp payload utcnow = None ∧ jose.validate_aud payload = None ∧
  jose.validate_sub payload = None ∧ jose.validate_jti payload = None ∧
  jose.validate_at_hash payload = None.
Proof.
  unfold jose.validate_claims. cbn [foldr].
  destruct (jose.validate_iat payload), (jose.validate_nbf payload utcnow),
    (jose.validate_exp payload utcnow), (jose.validate_aud payload),
    (jose.validate_sub payload), (jose.validate_jti payload),
    (jose.validate_at_hash payload);
    (split; [intros ?; repeat split; congruence|intros (?&?&?&?&?&?&?); congruence]).
Qed.

(** What [int_claim] raises is a [JWTClaimsError] exactly on the values
    that convert. *)
Lemma int_claim_inl (v : jose.json) (e : jose.exception) :
  jose.int_claim v = inl e →
  if jose.converts v then e = jose.JWTClaimsError else jose.JWTError e = false.
Proof.
  unfold jose.int_claim, jose.int.
  destruct v as [| | |[| |]| | |]; simpl; try by intros [= <-].
  destruct (int_str s); simpl; by intros [= <-].
Qed.

Lemma int_claim_converts (v : jose.json) :
  jose.converts v = false → ∃ e, jose.int_claim v = inl e ∧ jose.JWTError e = false.
Proof. destruct v as [| | |[| |]| | |]; simpl; try done; by eexists. Qed.

(** The checks raise the subclasses of [JWTError], never [JWTError]
    itself. *)
Lemma validate_claims_not_base (payload : gmap string jose.json) (utcnow : datetime) :
  jose.validate_claims payload utcnow ≠ Some jose.JWTError_base.
Proof.
  assert (∀ v, jose.int_claim v ≠ inl jose.JWTError_base) as Hint.
  { intros v Hv. apply int_claim_inl in Hv. by destruct (jose.converts v). }
  unfold jose.validate_claims. cbn [foldr].
  destruct (jose.validate_iat payload) as [e|] eqn:Hiat.
  { unfold jose.validate_iat in Hiat. destruct (payload !! "iat") as [v|]; [|done].
    destruct (jose.int_claim v) eqn:Hv; [|done]. intros [= ->]. injection Hiat as ->.
    by apply (Hint v). }
  destruct (jose.validate_nbf payload utcnow) as [e|] eqn:Hnbf.
  { unfold jose.validate_nbf in Hnbf. destruct (payload !! "nbf") as [v|]; [|done].
    destruct (jose.int_claim v) eqn:Hv.
    - intros [= ->]. injection Hnbf as ->. by apply (Hint v).
    - destruct (_ <? _); [|done]. by injection Hnbf as <-. }
  destruct (jose.validate_exp payload utcnow) as [e|] eqn:Hexp.
  { unfold jose.validate_exp in Hexp. destruct (payload !! "exp") as [v|]; [|done].
    destruct (jose.int_claim v) eqn:Hv.
    - intros [= ->]. injection Hexp as ->. by apply (Hint v).
    - destruct (_ <? _); [|done]. by injection Hexp as <-. }
  unfold jose.validate_aud, jose.validate_sub, jose.validate_jti, jose.validate_at_hash.
  repeat case_match; congruence.
Qed.



Lemma get_current_admin_inr (token : jwt) (d : DB) (utcnow : datetime) (admin : Admin) :
  get_current_admin token d utcnow = inr admin →
  ∃ payload,
    token = jose.Compact ALGORITHM payload (jose.sign payload SECRET_KEY ALGORITHM) ∧
    jose.validate_claims payload utcnow = None ∧
    payload !! "sub" = Some (jose.JStr (Admin.username admin)) ∧
    Admin.username admin ≠ "" ∧
    admin ∈ admins d.
Proof.
  unfold get_current_admin, jose.decode, raise.
  destruct token as [raw|alg payload sig]; [done|].
  destruct (bool_decide (alg ∈ [ALGORITHM])) eqn:Halg; simpl; [|done].
  destruct (bool_decide (sig = jose.sign payload SECRET_KEY alg)) eqn:Hsig; simpl; [|done].
  apply bool_decide_eq_true in Halg, Hsig.
  apply list_elem_of_singleton in Halg. subst alg sig.
  destruct (jose.validate_claims payload utcnow) as [err|] eqn:Hclaims;
    [by destruct (jose.JWTError err)|].
  destruct (truthy (payload !! "sub")) eqn:Htruthy; simpl; [|done].
  destruct (first _) as [a|] eqn:Hfirst; [|done].
  intros [= ->]. apply first_filter_Some in Hfirst as [Hin Heq].
  exists payload. repeat split; try done.
  rewrite <- Heq in Htruthy. simpl in Htruthy.
  intros Hempty. rewrite Hempty in Htruthy. done.
Qed.

(** Every failure of [get_current_admin] has one of the listed causes. *)
Lemma resolution_fails_complete (token : jwt) (d : DB) (utcnow : datetime)
  (e : HTTPException) :
  get_current_admin token d utcnow = inl e → resolution_fails d utcnow token.
Proof.
  unfold get_current_admin, jose.decode, raise.
  destruct token as [raw|alg payload sig]; [intros _; constructor|].
  destruct (bool_decide (alg ∈ [ALGORITHM])) eqn:Halg; simpl.
  2:{ intros _. apply algorithm_not_allowed. apply bool_decide_eq_false in Halg.
      intros ->. apply Halg. by left. }
  destruct (bool_decide (sig = jose.sign payload SECRET_KEY alg)) eqn:Hsig; simpl.
  2:{ intros _. apply invalid_signature. by apply bool_decide_eq_false in Hsig. }
  destruct (jose.validate_claims payload utcnow) as [err|] eqn:Hclaims.
  { intros _. by eapply rejected_claims. }
  destruct (payload !! "sub") as [v|] eqn:Hsub; [|intros _; by apply no_subject].
  apply validate_claims_None in Hclaims as (_ & _ & _ & _ & Hs & _).
  unfold jose.validate_sub in Hs. rewrite Hsub in Hs.
  destruct v as [| | | |u| |]; try done. simpl.
  destruct (String.eqb u "") eqn:Hu; simpl.
  { apply String.eqb_eq in Hu as ->. intros _. by apply empty_subject. }
  destruct (first _) eqn:Hfirst; [by intros [=]|]. intros _.
  eapply unknown_subject; [done|]. rewrite first_filter_None in Hfirst.
  intros (a & -> & Ha)%list_elem_of_fmap. by apply (Hfirst a).
Qed.


(** ** Creating a project *)

Lemma not_in_allowed_types (content_type : option string) :
  not_in content_type allowed_types = false ↔
  content_type = Some "image/png" ∨ content_type = Some "image/jpeg" ∨
  content_type = Some "image/jpg".
Proof.
  destruct content_type as [c|]; simpl.
  - rewrite negb_false_iff, bool_decide_eq_true. unfold allowed_types.
    rewrite !elem_of_union, !elem_of_singleton.
    split; [intros [[->| ->]| ->]; auto|intros [[= ->]|[[= ->]|[= ->]]]; auto].
  - split; [done|by intros [|[|]]].
Qed.

Lemma add_Project_first (title description image_url : string) (d : DB) :
  first (filter (λ p, Project.id p = Project.id (add_Project title description image_url d).1)
                (projects (add_Project title description image_url d).2))
  = Some (add_Project title description image_url d).1.
Proof.
  simpl. rewrite filter_app, (filter_singleton_True _ _ []) by done.
  assert (filter (λ p, Project.id p = next_rowid (Project.id <$> projects d)) (projects d) = [])
    as ->; [|done].
  apply head_None, (first_filter_None _). intros p Hp Heq.
  assert (Project.id p < next_rowid (Project.id <$> projects d)) as Hlt
    by (apply next_rowid_fresh; by apply list_elem_of_fmap_2).
  lia.
Qed.

(** What [create_project] does once the content type has passed. *)
Lemma create_project_valid (title description : string) (image : UploadFile)
  (base_url : string) (s : Store) :
  not_in (UploadFile.content_type image) allowed_types = false →
  let file_location := UPLOAD_DIR +:+ "/" +:+ UploadFile.filename image in
  let written := open_wb_write file_location (UploadFile.read image) (disk s) in
  let image_url := strip "/" base_url +:+ "/uploads/" +:+ UploadFile.filename image in
  let added := add_Project title description image_url (db s) in
  create_project title description image base_url s =
    if written.2 then (inr added.1, mkStore added.2 written.1)
    else (inl internal_server_error, mkStore (db s) written.1).
Proof.
  intros Hct. unfold create_project. rewrite Hct. cbv zeta.
  destruct (open_wb_write _ _ _) as [disk' [|]]; simpl negb; cbv iota; [|done].
  pose proof (add_Project_first title description
    (strip "/" base_url +:+ "/uploads/" +:+ UploadFile.filename image) (db s)) as Hfirst.
  unfold add_Project in *. cbv zeta in *. cbn [fst snd] in *.
  by rewrite Hfirst.
Qed.

Lemma create_project_invalid (title description : string) (image : UploadFile)
  (base_url : string) (s : Store) :
  not_in (UploadFile.content_type image) allowed_types = true →
  create_project title description image base_url s =
    (raise (mkHTTPException 400 "Invalid image format"), s).
Proof. intros Hct. unfold create_project. by rewrite Hct. Qed.


(** C3. A request whose image has a rejected content type ("text/plain",
    or any other than the three accepted ones) fails with the validation
    error and leaves the whole store as it was: no row is inserted and the
    upload directory is not written. *)
Theorem create_project_rejected_no_effect (title description : string)
  (image : UploadFile) (base_url : string) (s : Store) :
  UploadFile.content_type image ≠ Some "image/png" →
  UploadFile.content_type image ≠ Some "image/jpeg" →
  UploadFile.content_type image ≠ Some "image/jpg" →
  create_project title description image base_url s =
    (raise (mkHTTPException 400 "Invalid image format"), s).
Proof.
  intros Hpng Hjpeg Hjpg. apply create_project_invalid.
  destruct (not_in _ _) eqn:Hct; [done|].
  apply not_in_allowed_types in Hct as [?|[?|?]]; done.
Qed.


(** ** Issuing tokens *)

Lemma timegm_add_minutes (t : datetime) (m : Z) :
  timegm (t + timedelta_minutes m) = timegm t + m * 60.
Proof.
  unfold timegm, timedelta_minutes, microseconds_per_second.
  rewrite Z.div_add by lia. done.
Qed.

Lemma encode_exp (data : gmap string jose.pyval) (expire : datetime)
  (key alg : string) (token : jwt) :
  jose.encode (<["exp" := jose.PDatetime expire]> data) key alg = Some token →
  jose.claim "exp" token = Some (jose.JNum (timegm expire)).
Proof.
  unfold jose.encode. repeat case_match; [|done..]. intros [= <-].
  unfold jose.claim. simpl. rewrite map_lookup_imap, lookup_insert_eq. done.
Qed.

Lemma create_access_token_exp (data : gmap string jose.pyval)
  (expires_delta : option timedelta) (utcnow : datetime) (token : jwt) :
  create_access_token data expires_delta utcnow = Some token →
  jose.claim "exp" token =
    Some (jose.JNum (timegm (utcnow + timedelta_or expires_delta (timedelta_minutes 15)))).
Proof. apply encode_exp. Qed.

(** The token over a subject alone: signing never raises, and the claim
    set holds the subject and the expiry. *)
Lemma create_access_token_sub (username : string) (expires_delta : option timedelta)
  (utcnow : datetime) :
  let expire := utcnow + timedelta_or expires_delta (timedelta_minutes 15) in
  let payload : gmap string jose.json :=
    <["exp" := jose.JNum (timegm expire)]> {["sub" := jose.JStr username]} in
  create_access_token {["sub" := jose.PStr username]} expires_delta utcnow
  = Some (jose.Compact ALGORITHM payload (jose.sign payload SECRET_KEY ALGORITHM)).
Proof.
  intros expire payload. unfold create_access_token, jose.encode.
  rewrite bool_decide_eq_true_2 by (unfold ALGORITHM, jose.supported_algorithms; set_solver).
  rewrite bool_decide_eq_true_2.
  2:{ apply map_Forall_insert_2; [by eexists|].
      apply map_Forall_singleton. by eexists. }
  cbv zeta. fold expire.
  assert (map_imap jose.to_json
            (<["exp" := jose.PDatetime expire]> {["sub" := jose.PStr username]})
          = payload) as ->; [|done].
  unfold payload. rewrite <- !insert_empty.
  erewrite !map_imap_insert_Some; [|done..]. by rewrite map_imap_empty.
Qed.

Lemma login_admin_authenticated (username password : string) (d : DB)
  (utcnow : datetime) (admin : Admin) :
  authenticate_admin username password d = Some admin →
  ∃ token, login_admin username password d utcnow = inr (Token.mk token "bearer").
Proof.
  intros Hauth. unfold login_admin. rewrite Hauth.
  rewrite create_access_token_sub. eauto.
Qed.

(** The checks on the claims of a login: only the expiry can fail. *)
Lemma validate_login_claims (username : string) (exp : Z) (utcnow : datetime) :
  jose.validate_claims (<["exp" := jose.JNum exp]> {["sub" := jose.JStr username]}) utcnow
  = if exp <? timegm utcnow then Some jose.ExpiredSignatureError else None.
Proof.
  unfold jose.validate_claims, jose.validate_iat, jose.validate_nbf, jose.validate_exp,
    jose.validate_aud, jose.validate_sub, jose.validate_jti, jose.validate_at_hash.
  rewrite lookup_insert_eq. repeat rewrite lookup_insert_ne by done.
  rewrite lookup_singleton_eq. repeat rewrite lookup_singleton_ne by done.
  cbn [foldr jose.int_claim jose.int]. by destruct (exp <? timegm utcnow).
Qed.

Lemma decode_login_token (username : string) (exp : Z) (utcnow : datetime) :
  let payload : gmap string jose.json :=
    <["exp" := jose.JNum exp]> {["sub" := jose.JStr username]} in
  jose.decode (jose.Compact ALGORITHM payload (jose.sign payload SECRET_KEY ALGORITHM))
    SECRET_KEY [ALGORITHM] utcnow
  = if exp <? timegm utcnow then inl jose.ExpiredSignatureError else inr payload.
Proof.
  cbv zeta. unfold jose.decode.
  rewrite bool_decide_eq_true_2 by (by left).
  rewrite bool_decide_eq_true_2 by done. cbn [negb].
  rewrite validate_login_claims. by destruct (exp <? timegm utcnow).
Qed.

(** Within its lifetime the token of a login names the administrator who
    logged in (an administrator whose username is empty is the
    exception: the subject is then falsy). *)
Lemma login_token_resolves (username password : string) (d : DB)
  (utcnow later : datetime) (tok : Token.t) :
  login_admin username password d utcnow = inr tok →
  username ≠ "" →
  timegm later ≤ timegm (utcnow + timedelta_minutes 30) →
  ∃ admin, authenticate_admin username password d = Some admin ∧
           get_current_admin (Token.access_token tok) d later = inr admin.
Proof.
  unfold login_admin. destruct (authenticate_admin _ _ _) as [admin|] eqn:Hauth; [|done].
  rewrite create_access_token_sub. intros [= <-] Hname Hlater.
  exists admin. split; [done|].
  unfold authenticate_admin in Hauth.
  destruct (first _) as [a|] eqn:Hfirst; [|done].
  assert (a = admin) as -> by (by destruct (negb _); simplify_eq).
  apply first_filter_Some in Hfirst as Hfound. destruct Hfound as [_ Husername].
  unfold get_current_admin. cbn [Token.access_token].
  rewrite decode_login_token.
  assert ((timegm (utcnow + timedelta_minutes ACCESS_TOKEN_EXPIRE_MINUTES)
           <? timegm later) = false) as Hvalid by (apply Z.ltb_ge; exact Hlater).
  cbn [timedelta_or]. change (timedelta_minutes ACCESS_TOKEN_EXPIRE_MINUTES =? 0) with false.
  cbv iota. rewrite Hvalid. cbv beta iota zeta.
  rewrite Husername, lookup_insert_ne, lookup_singleton_eq by done.
  cbn [truthy].
  assert (String.eqb username "" = false) as -> by (by apply String.eqb_neq).
  cbn [negb].
  erewrite list_filter_iff; [by rewrite Hfirst|].
  intros x. split; [by intros [= ->]|by intros ->].
Qed.

(** C4, amended. The token of the login endpoint carries as [exp] the
    instant exactly 30 minutes after its issuance; a token that
    [create_access_token] issues without an explicit duration carries the
    instant 15 minutes after its issuance. *)
Theorem token_time_to_live :
  (∀ username password d utcnow tok,
     login_admin username password d utcnow = inr tok →
     jose.claim "exp" (Token.access_token tok)
       = Some (jose.JNum (timegm (utcnow + timedelta_minutes 30)))) ∧
  (∀ data utcnow token,
     create_access_token data None utcnow = Some token →
     jose.claim "exp" token
       = Some (jose.JNum (timegm (utcnow + timedelta_minutes 15)))).
Proof.
  split.
  - intros username password d utcnow tok. unfold login_admin.
    destruct (authenticate_admin _ _ _) as [admin|]; [|done].
    destruct (create_access_token _ _ _) as [token|] eqn:Htoken; [|done].
    intros [= <-]. by apply create_access_token_exp in Htoken.
  - intros data utcnow token Htoken. by apply create_access_token_exp in Htoken.
Qed.

(** ** Registering an administrator *)

Lemma register_admin_taken (admin_data : AdminCreate) (d : DB) (salt : string)
  (a : Admin) :
  a ∈ admins d →
  Admin.username a = AdminCreate.username admin_data →
  register_admin admin_data d salt
    = (raise (mkHTTPException 400 "Admin already exists"), d).
Proof.
  intros Hin Hname. unfold register_admin.
  by destruct (first_filter_is_Some
    (λ a, Admin.username a = AdminCreate.username admin_data) _ a Hin Hname) as [? ->].
Qed.

(** C5. When the table already holds an administrator with the submitted
    username, [register_admin] fails with 400 "Admin already exists" and
    the database is the one it was given: every row, the first
    administrator's included, is as before, and so is the outcome of
    authenticating with any credentials. *)
Theorem register_admin_conflict (admin_data : AdminCreate) (d : DB) (salt : string)
  (a : Admin) :
  a ∈ admins d →
  Admin.username a = AdminCreate.username admin_data →
  register_admin admin_data d salt
    = (raise (mkHTTPException 400 "Admin already exists"), d) ∧
  a ∈ admins (register_admin admin_data d salt).2 ∧
  ∀ username password,
    authenticate_admin username password (register_admin admin_data d salt).2
    = authenticate_admin username password d.
Proof.
  intros Hin Hname. rewrite (register_admin_taken admin_data d salt a Hin Hname).
  by repeat split.
Qed.

(** A registration that went through blocks the next one under the same
    name. *)
Lemma register_admin_twice (first_data second_data : AdminCreate) (d d' : DB)
  (salt salt' : string) (body : gmap string string) :
  register_admin first_data d salt = (inr body, d') →
  AdminCreate.username second_data = AdminCreate.username first_data →
  register_admin second_data d' salt'
    = (raise (mkHTTPException 400 "Admin already exists"), d') ∧
  admins d' = admins d ++
    [Admin.mk (next_rowid (Admin.id <$> admins d)) (AdminCreate.username first_data)
       (pwd_context_hash salt (AdminCreate.password first_data))].
Proof.
  unfold register_admin at 1, add_Admin.
  destruct (first _); [done|]. case_bool_decide; [done|].
  intros [= <- <-] Hname. split; [|done].
  apply register_admin_taken with
    (a := Admin.mk (next_rowid (Admin.id <$> admins d)) (AdminCreate.username first_data)
            (pwd_context_hash salt (AdminCreate.password first_data))); [|done].
  cbn [admins]. apply elem_of_app. right. by apply list_elem_of_singleton.
Qed.

(** ** Updating and deleting a project *)

Lemma query_Project_inv (project_id : Z) (d : DB) (p : Project) :
  query_Project project_id d = inr (Some p) →
  p ∈ projects d ∧ Project.id p = project_id.
Proof.
  unfold query_Project.
  destruct (first (filter _ (projects d))) as [q|] eqn:Hq.
  - intros [= <-]. by apply first_filter_Some in Hq.
  - by destruct (sqlite_integer project_id).
Qed.

Lemma set_Project_id (project_id : Z) (title description image_url : string)
  (p : Project) :
  Project.id (set_Project project_id title description image_url p) = Project.id p.
Proof. unfold set_Project. by case_decide. Qed.

Lemma first_filter_set_Project (project_id : Z) (title description image_url : string)
  (rows : list Project) :
  first (filter (λ p, Project.id p = project_id)
           (set_Project project_id title description image_url <$> rows))
  = set_Project project_id title description image_url
      <$> first (filter (λ p, Project.id p = project_id) rows).
Proof.
  induction rows as [|p rows IH]; [done|].
  rewrite fmap_cons, !filter_cons, set_Project_id.
  by destruct (decide (Project.id p = project_id)).
Qed.

(** The successful branch of [update_project]. *)
Lemma update_project_found (project_id : Z) (project : ProjectSchema) (d : DB)
  (admin : Admin) (p0 : Project) :
  p0 ∈ projects d → Project.id p0 = project_id → sqlite_integer project_id = true →
  update_project project_id project d admin =
    (inr (Project.mk project_id (ProjectSchema.title project)
            (ProjectSchema.description project) (ProjectSchema.image_url project)),
     update_Project project_id (ProjectSchema.title project)
       (ProjectSchema.description project) (ProjectSchema.image_url project) d).
Proof.
  intros Hin Hid Hint. unfold update_project.
  destruct (first_filter_is_Some (λ p, Project.id p = project_id) _ p0 Hin Hid)
    as [q Hq].
  rewrite (query_Project_Some _ _ _ Hq).
  apply first_filter_Some in Hq as Hq'. destruct Hq' as [_ Hidq].
  rewrite Hidq, Hint. simpl. unfold update_Project at 1. cbn [projects].
  rewrite first_filter_set_Project, Hq. simpl.
  unfold set_Project. rewrite decide_True by done. by rewrite Hidq.
Qed.

(** Its failing branches: no row under the id. *)
Lemma update_project_missing (project_id : Z) (project : ProjectSchema) (d : DB)
  (admin : Admin) :
  (∀ p, p ∈ projects d → Project.id p ≠ project_id) →
  update_project project_id project d admin
  = (raise (if sqlite_integer project_id then project_not_found
            else internal_server_error), d).
Proof.
  intros Hnone. unfold update_project.
  rewrite query_Project_None
    by by apply (first_filter_None (λ p, Project.id p = project_id)).
  by destruct (sqlite_integer project_id).
Qed.

(** C7. [update_project] does not answer 404 for every id no project
    has: the id 2^63, which the path parameter admits and no row can carry,
    makes the query of the handler fail in the driver, and the resolved
    administrator is answered 500, the database being left as it was. *)
Theorem update_project_overflow :
  (∀ p, p ∈ projects example_db → Project.id p ≠ 2 ^ 63) ∧
  update_project (2 ^ 63) (ProjectSchema.mk "Span" "A longer span" "")
    example_db example_admin
  = (raise (mkHTTPException 500 "Internal Server Error"), example_db).
Proof.
  split; [|by vm_compute].
  intros p ->%list_elem_of_singleton. by vm_compute.
Qed.

(** The successful branch of [delete_project]. *)
Lemma delete_project_found (project_id : Z) (d : DB) (admin : Admin) (p0 : Project) :
  p0 ∈ projects d → Project.id p0 = project_id → sqlite_integer project_id = true →
  delete_project project_id d admin =
    (inr {["message" := "Project deleted successfully"]}, delete_Project project_id d).
Proof.
  intros Hin Hid Hint. unfold delete_project.
  destruct (first_filter_is_Some (λ p, Project.id p = project_id) _ p0 Hin Hid)
    as [q Hq].
  rewrite (query_Project_Some _ _ _ Hq).
  apply first_filter_Some in Hq as [_ ->]. by rewrite Hint.
Qed.

Lemma delete_project_missing (project_id : Z) (d : DB) (admin : Admin) :
  (∀ p, p ∈ projects d → Project.id p ≠ project_id) →
  delete_project project_id d admin
  = (raise (if sqlite_integer project_id then project_not_found
            else internal_server_error), d).
Proof.
  intros Hnone. unfold delete_project.
  rewrite query_Project_None
    by by apply (first_filter_None (λ p, Project.id p = project_id)).
  by destruct (sqlite_integer project_id).
Qed.

(** C8. [delete_project] does not answer 404 for every id absent from
    the store: on the id 2^63 the query of the handler fails in the driver
    and the answer is 500.  The store is left unchanged, as the claim has
    it. *)
Theorem delete_project_overflow :
  (∀ p, p ∈ projects example_db → Project.id p ≠ 2 ^ 63) ∧
  delete_project (2 ^ 63) example_db example_admin
  = (raise (mkHTTPException 500 "Internal Server Error"), example_db).
Proof.
  split; [|by vm_compute].
  intros p ->%list_elem_of_singleton. by vm_compute.
Qed.

(** C10. Frame of the two mutations.  A successful [delete_project]
    keeps, in their order, exactly the project rows under another id, and
    a successful [update_project] keeps every row in its place with its
    id, rows under another id being untouched; neither changes the
    contact messages or the administrators. *)
Theorem project_mutations_frame (project_id : Z) (d d' : DB) (admin : Admin) :
  (∀ body, delete_project project_id d admin = (inr body, d') →
     projects d' = filter (λ p, Project.id p ≠ project_id) (projects d) ∧
     (∀ p, p ∈ projects d' ↔ p ∈ projects d ∧ Project.id p ≠ project_id) ∧
     contact_messages d' = contact_messages d ∧
     admins d' = admins d) ∧
  (∀ project updated, update_project project_id project d admin = (inr updated, d') →
     length (projects d') = length (projects d) ∧
     (∀ i p, projects d !! i = Some p →
        ∃ p', projects d' !! i = Some p' ∧
              Project.id p' = Project.id p ∧
              (Project.id p ≠ project_id → p' = p)) ∧
     contact_messages d' = contact_messages d ∧
     admins d' = admins d).
Proof.
  split.
  - intros body. unfold delete_project.
    destruct (query_Project project_id d) as [e|[q|]] eqn:Hq; [done| |done].
    apply query_Project_inv in Hq as [_ ->].
    destruct (sqlite_integer project_id); simpl; [|done]. intros [= _ <-].
    unfold delete_Project. cbn [projects contact_messages admins].
    split; [done|]. split; [|done].
    intros p. rewrite list_elem_of_filter. tauto.
  - intros project updated. unfold update_project.
    destruct (query_Project project_id d) as [e|[q|]] eqn:Hq; [done| |done].
    apply query_Project_inv in Hq as [_ ->].
    destruct (sqlite_integer project_id); simpl; [|done].
    destruct (first _); intros [= _ <-];
      unfold update_Project; cbn [projects contact_messages admins].
    all: split; [apply length_fmap|]; split; [|done].
    all: intros i p Hp; eexists; rewrite list_lookup_fmap, Hp; simpl.
    all: split; [done|]; split; [apply set_Project_id|].
    all: intros Hne; unfold set_Project; by rewrite decide_False.
Qed.

(** ** The routes *)

(** The three protected routes answer the failure of the dependency and
    touch nothing. *)
Lemma protected_routes_require_admin (project_id : Z) (project : ProjectSchema)
  (authorization : option jwt) (s : Store) (utcnow : datetime) (salt : string)
  (e : HTTPException) :
  depends_get_current_admin authorization (db s) utcnow = inl e →
  app (GET_contact authorization) s utcnow salt = (inl e, s) ∧
  app (PUT_project project_id project authorization) s utcnow salt = (inl e, s) ∧
  app (DELETE_project project_id authorization) s utcnow salt = (inl e, s).
Proof. intros He. simpl. by rewrite He. Qed.


(** ** Contact messages *)

Lemma app_contact_messages (req : request) (s : Store) (utcnow : datetime)
  (salt : string) :
  contact_messages (db s) `prefix_of` contact_messages (db (app req s utcnow salt).2).
Proof.
  destruct req; simpl; try done.
  - by apply prefix_app_r.
  - unfold register_admin, add_Admin. by repeat case_match; simplify_eq.
  - by destruct (empty username || empty password).
  - unfold create_project, add_Project. by repeat case_match; simplify_eq.
  - unfold update_project, update_Project. by repeat case_match; simplify_eq.
  - unfold delete_project, delete_Project. by repeat case_match; simplify_eq.
Qed.

Lemma serve_contact_messages (reqs : list (request * datetime * string)) (s : Store) :
  contact_messages (db s) `prefix_of` contact_messages (db (serve reqs s)).
Proof.
  revert s. induction reqs as [|[[req utcnow] salt] reqs IH]; intros s; [done|].
  simpl. etrans; [apply (app_contact_messages req s utcnow salt)|apply IH].
Qed.

End Properties.

(** * The handlers at work in the concrete environment *)

Example example_token_resolves :
  get_current_admin (H := example_env) example_token example_db 0 = inr example_admin.
Proof. vm_compute. reflexivity. Qed.

Example expired_token_refused :
  get_current_admin (H := example_env) example_token example_db 1801000000
    = raise (mkHTTPException 401 "Invalid authentication").
Proof. vm_compute. reflexivity. Qed.

Example tampered_token_unauthorized :
  get_current_admin (H := example_env) example_tampered_token example_db 0
    = raise (mkHTTPException 401 "Invalid authentication").
Proof. vm_compute. reflexivity. Qed.

Example anonymous_token_unauthorized :
  get_current_admin (H := example_env) example_anonymous_token example_db 0
    = raise (mkHTTPException 401 "Invalid authentication").
Proof. vm_compute. reflexivity. Qed.

(** C1. [get_current_admin] does not answer every failing resolution
    alike.  Of two tokens signed under the key, both without subject, the
    one whose expiry is a number is refused with 401 "Invalid
    authentication"; on the one whose expiry is [null] the conversion
    [int(None)] inside [jwt.decode] raises a [TypeError], which [except
    JWTError] does not catch, and the answer is 500. *)
Theorem get_current_admin_uncaught_TypeError :
  jose.claim "sub" example_anonymous_token = None ∧
  jose.claim "sub" example_null_expiry_token = None ∧
  get_current_admin (H := example_env) example_anonymous_token example_db 0
    = raise (mkHTTPException 401 "Invalid authentication") ∧
  get_current_admin (H := example_env) example_null_expiry_token example_db 0
    = raise (mkHTTPException 500 "Internal Server Error").
Proof. repeat split; vm_compute; reflexivity. Qed.



Lemma create_project_text_plain_rejected :
  create_project (H := example_env) "Notes" "Some notes" example_txt
    "http://testserver/" example_store
  = (raise (mkHTTPException 400 "Invalid image format"), example_store).
Proof.
  apply (create_project_rejected_no_effect (H := example_env)); simpl; congruence.
Defined.


(** Issued at clock 0 without a duration, a token expires at second 900,
    not at second 1800. *)
Lemma create_access_token_default_15_minutes :
  ∃ token,
    create_access_token (H := example_env) {["sub" := jose.PStr "admin"]} None 0
      = Some token ∧
    jose.claim "exp" token = Some (jose.JNum 900) ∧
    jose.claim "exp" token ≠ Some (jose.JNum (timegm (0 + timedelta_minutes 30))).
Proof. eexists. split; [vm_compute; reflexivity|]. split; [vm_compute; reflexivity|done]. Qed.

Lemma login_token_expires_after_30_minutes :
  ∃ tok,
    login_admin (H := example_env) "admin" "secret" example_db 0 = inr tok ∧
    jose.claim "exp" (Token.access_token tok) = Some (jose.JNum 1800).
Proof.
  eexists. split; [vm_compute; reflexivity|].
  exact (proj1 (token_time_to_live (H := example_env)) "admin" "secret" example_db 0 _
           eq_refl).
Defined.

Example login_token_is_example_token :
  login_admin (H := example_env) "admin" "secret" example_db 0
    = inr (Token.mk example_token "bearer").
Proof. vm_compute. reflexivity. Qed.

Example login_wrong_password :
  login_admin (H := example_env) "admin" "wrong" example_db 0
    = raise (mkHTTPException 401 "Invalid credentials").
Proof. vm_compute. reflexivity. Qed.

Lemma register_admin_conflict_example :
  register_admin (H := example_env) (AdminCreate.mk "admin" "other") example_db "pepper"
    = (raise (mkHTTPException 400 "Admin already exists"), example_db).
Proof.
  apply (register_admin_conflict (H := example_env) (AdminCreate.mk "admin" "other")
           example_db "pepper" example_admin).
  - left.
  - reflexivity.
Defined.

Example delete_project_missing_example :
  delete_project 7 example_db example_admin
    = (raise (mkHTTPException 404 "Project not found"), example_db).
Proof. vm_compute. reflexivity. Qed.

Lemma delete_project_frame_example :
  ∃ d',
    delete_project 1 example_db2 example_admin
      = (inr {["message" := "Project deleted successfully"]}, d') ∧
    projects d' = [example_other_project] ∧
    contact_messages d' = [example_message] ∧
    admins d' = [example_admin].
Proof.
  eexists. split; [vm_compute; reflexivity|].
  pose proof (proj1 (project_mutations_frame 1 example_db2 _ example_admin) _ eq_refl)
    as (Hprojects & _ & Hmessages & Hadmins).
  repeat split; assumption.
Defined.

Example update_project_frame_example :
  (update_project 1 (ProjectSchema.mk "Bridge 2" "Rebuilt" "http://testserver/uploads/b2.png")
     example_db2 example_admin).2
  = mkDB [example_message]
      [Project.mk 1 "Bridge 2" "Rebuilt" "http://testserver/uploads/b2.png";
       example_other_project]
      [example_admin].
Proof. vm_compute. reflexivity. Qed.

Example serve_example :
  db (serve (H := example_env)
        [(POST_contact (ContactForm.mk "Bob" "bob@example.org" "Hi"), 2000000, "");
         (DELETE_project 1 (Some example_token), 3000000, "");
         (DELETE_project 1 None, 3000000, "");
         (POST_register_admin (AdminCreate.mk "root" "toor"), 4000000, "salt")]
        example_store)
  = mkDB [example_message; ContactMessage.mk 2 "Bob" "bob@example.org" "Hi" 2000000]
      []
      [example_admin; Admin.mk 2 "root" "$2b$salt$toor"].
Proof. vm_compute. reflexivity. Qed.

(** C9. A contact message does not outlast every operation of the
    system.  [create_project] joins the upload directory and the file name
    of the upload as the client sent it: for the name "../emca.db" the
    handler opens "uploads/../emca.db", the file of [DATABASE_URL], for
    writing and puts the bytes of the upload there, in place of the
    tables. *)
Theorem create_project_writes_database_file :
  inside_uploads (POST_projects "Plan" "The plan" example_traversal "http://testserver/")
    = false ∧
  disk (create_project (H := example_env) "Plan" "The plan" example_traversal
          "http://testserver/" example_store).2 !! "uploads/../emca.db"
    = Some (UploadFile.read example_traversal).
Proof. split; vm_compute; reflexivity. Qed.

(** * Further properties of the handlers *)

Section Authentication.
Context `{Env}.

(** ** Logging in *)

Lemma authenticate_admin_Some (username password : string) (d : DB) (a : Admin) :
  authenticate_admin username password d = Some a →
  first (filter (λ a, Admin.username a = username) (admins d)) = Some a ∧
  a ∈ admins d ∧ Admin.username a = username ∧
  pwd_context_verify password (Admin.password_hash a) = true.
Proof.
  unfold authenticate_admin.
  destruct (first (filter _ (admins d))) as [a'|] eqn:Hfirst; [|done].
  destruct (pwd_context_verify password (Admin.password_hash a')) eqn:Hverify;
    cbn [negb]; [|done].
  intros [= ->]. by destruct (first_filter_Some _ _ _ Hfirst) as [Hin Hname].
Qed.

(** [login_admin] answers with a bearer token for the submitted username
    only when an administrator of that name is stored and the password
    verifies against the stored hash; an unknown name and a wrong password
    are refused alike, with 401 "Invalid credentials". *)
Theorem login_admin_sound (username password : string) (d : DB) (utcnow : datetime) :
  match login_admin username password d utcnow with
  | inr tok =>
    Token.token_type tok = "bearer" ∧
    jose.claim "sub" (Token.access_token tok) = Some (jose.JStr username) ∧
    ∃ a, a ∈ admins d ∧ Admin.username a = username ∧
         pwd_context_verify password (Admin.password_hash a) = true
  | inl e =>
    e = mkHTTPException 401 "Invalid credentials" ∧
    ((∀ a, a ∈ admins d → Admin.username a ≠ username) ∨
     (∃ a, a ∈ admins d ∧ Admin.username a = username ∧
           pwd_context_verify password (Admin.password_hash a) = false))
  end.
Proof.
  unfold login_admin, authenticate_admin.
  destruct (first _) as [a|] eqn:Hfirst.
  - apply first_filter_Some in Hfirst as [Hin Hname].
    destruct (pwd_context_verify password (Admin.password_hash a)) eqn:Hverify;
      cbn [negb].
    + rewrite create_access_token_sub. cbn [mret result_ret Token.token_type
        Token.access_token]. split; [done|]. split; [|by eauto].
      unfold jose.claim. cbn. rewrite lookup_insert_ne by done.
      by rewrite lookup_singleton_eq, Hname.
    + split; [done|]. right. eauto.
  - split; [done|]. left. by apply (first_filter_None _).
Qed.

(** ** Resolving a token *)

(** An administrator is resolved only from a token signed under
    [SECRET_KEY] with HS256 over its own claims, whose expiry, if it has
    one, is not behind the clock, and whose subject is the non-empty
    username of that stored administrator. *)
Theorem get_current_admin_sound (token : jwt) (d : DB) (utcnow : datetime)
  (admin : Admin) :
  get_current_admin token d utcnow = inr admin →
  ∃ payload,
    token = jose.Compact "HS256" payload (jose.sign payload SECRET_KEY "HS256") ∧
    (∀ e, payload !! "exp" = Some (jose.JNum e) → timegm utcnow ≤ e) ∧
    jose.claim "sub" token = Some (jose.JStr (Admin.username admin)) ∧
    Admin.username admin ≠ "" ∧
    admin ∈ admins d.
Proof.
  intros (payload & -> & Hclaims & Hsub & Hne & Hin)%get_current_admin_inr.
  exists payload. repeat split; try done.
  intros e He. apply validate_claims_None in Hclaims as (_ & _ & Hexp & _).
  unfold jose.validate_exp in Hexp. rewrite He in Hexp. cbn in Hexp.
  destruct (e <? timegm utcnow) eqn:Hlt; [done|]. by apply Z.ltb_ge.
Qed.


(** The token of a login names, until the second it expires, the
    administrator who logged in, and from the next second on it is
    refused. *)
Theorem login_token_lifetime (username password : string) (d : DB)
  (utcnow later : datetime) (tok : Token.t) (admin : Admin) :
  login_admin username password d utcnow = inr tok →
  authenticate_admin username password d = Some admin →
  username ≠ "" →
  (timegm later ≤ timegm utcnow + 1800 →
   get_current_admin (Token.access_token tok) d later = inr admin) ∧
  (timegm utcnow + 1800 < timegm later →
   get_current_admin (Token.access_token tok) d later
     = raise (mkHTTPException 401 "Invalid authentication")).
Proof.
  intros Hlogin Hauth Hname. split.
  - intros Hlater.
    destruct (login_token_resolves username password d utcnow later tok Hlogin Hname)
      as (a & Ha & Hres).
    { rewrite timegm_add_minutes. lia. }
    by simplify_eq.
  - intros Hlater. unfold login_admin in Hlogin. rewrite Hauth in Hlogin.
    rewrite create_access_token_sub in Hlogin. injection Hlogin as <-.
    unfold get_current_admin. cbn [Token.access_token].
    rewrite decode_login_token. cbn [timedelta_or].
    change (timedelta_minutes ACCESS_TOKEN_EXPIRE_MINUTES =? 0) with false.
    cbv iota. rewrite timegm_add_minutes.
    change (ACCESS_TOKEN_EXPIRE_MINUTES * 60) with 1800.
    by rewrite (proj2 (Z.ltb_lt _ _) Hlater).
Qed.

Lemma falsy_subject_refused (username password : string) (d : DB)
  (utcnow later : datetime) (tok : Token.t) :
  username = "" →
  login_admin username password d utcnow = inr tok →
  get_current_admin (Token.access_token tok) d later = inl invalid_authentication.
Proof.
  intros Hempty Hlogin.
  unfold login_admin in Hlogin.
  destruct (authenticate_admin username password d) as [a|] eqn:Hauth; [|done].
  apply authenticate_admin_Some in Hauth as (_ & _ & Ha & _).
  rewrite create_access_token_sub, Ha in Hlogin. injection Hlogin as <-.
  unfold get_current_admin. cbn [Token.access_token].
  rewrite decode_login_token.
  destruct (_ <? timegm later); [done|]. cbv zeta.
  rewrite lookup_insert_ne, lookup_singleton_eq by done.
  rewrite Hempty. done.
Qed.

(** An administrator registered under the empty username can log in, but
    the token is never accepted: its subject is falsy. *)
Theorem empty_username_token_refused (password : string) (d : DB)
  (utcnow later : datetime) (tok : Token.t) :
  login_admin "" password d utcnow = inr tok →
  get_current_admin (Token.access_token tok) d later
    = raise (mkHTTPException 401 "Invalid authentication").
Proof. exact (falsy_subject_refused "" password d utcnow later tok eq_refl). Qed.

End Authentication.

Section Tokens.
Context `{Env}.

(** A token of [create_access_token] expires the given duration after its
    issuance, or 15 minutes after it when the duration is absent or zero;
    an [exp] among the claims handed in is overwritten, and every other
    claim goes into the token as it serialises. *)
Theorem create_access_token_claims (data : gmap string jose.pyval)
  (expires_delta : option timedelta) (utcnow : datetime) (token : jwt) :
  create_access_token data expires_delta utcnow = Some token →
  let lifetime :=
    match expires_delta with
    | Some delta => if decide (delta = 0) then timedelta_minutes 15 else delta
    | None => timedelta_minutes 15
    end in
  jose.claim "exp" token = Some (jose.JNum (timegm (utcnow + lifetime))) ∧
  (∀ k, k ≠ "exp" → jose.claim k token = data !! k ≫= jose.to_json k) ∧
  jose.decode token SECRET_KEY [ALGORITHM] utcnow ≠ inl jose.JWTError_base.
Proof.
  intros Htoken lifetime.
  assert (timedelta_or expires_delta (timedelta_minutes 15) = lifetime) as Hlifetime.
  { unfold timedelta_or, lifetime. destruct expires_delta as [delta|]; [|done].
    destruct (Z.eqb_spec delta 0); by case_decide. }
  split; [|split].
  - rewrite <- Hlifetime. exact (create_access_token_exp data _ _ _ Htoken).
  - intros k Hk. unfold create_access_token, jose.encode in Htoken.
    repeat case_match; simplify_eq.
    unfold jose.claim. cbn [jose.get_unverified_claims mbind option_bind].
    by rewrite map_lookup_imap, lookup_insert_ne.
  - unfold create_access_token, jose.encode in Htoken.
    repeat case_match; simplify_eq.
    unfold jose.decode.
    rewrite bool_decide_eq_true_2 by (by left).
    rewrite bool_decide_eq_true_2 by done. cbn [negb].
    destruct (jose.validate_claims _ utcnow) as [e|] eqn:Hclaims; [|done].
    intros [= ->]. by apply validate_claims_not_base in Hclaims.
Qed.

End Tokens.

Section Tables.
Context `{Env}.

(** ** The administrators over a run *)

Lemma first_filter_prefix {A : Type} (P : A → Prop) `{!∀ x, Decision (P x)}
  (rows rows' : list A) (x : A) :
  rows `prefix_of` rows' →
  first (filter P rows) = Some x → first (filter P rows') = Some x.
Proof.
  intros [more ->] Hx. rewrite filter_app. unfold first in *.
  destruct (filter P rows); [done|]. done.
Qed.

Lemma app_admins (req : request) (s : Store) (utcnow : datetime) (salt : string) :
  admins (db s) `prefix_of` admins (db (app req s utcnow salt).2).
Proof.
  destruct req; simpl; try done.
  - unfold register_admin, add_Admin. repeat case_match; simplify_eq; try done.
    by apply prefix_app_r.
  - by case_match.
  - unfold create_project, add_Project. by repeat case_match; simplify_eq.
  - unfold update_project, update_Project. by repeat case_match; simplify_eq.
  - unfold delete_project, delete_Project. by repeat case_match; simplify_eq.
Qed.

Lemma serve_admins (reqs : list (request * datetime * string)) (s : Store) :
  admins (db s) `prefix_of` admins (db (serve reqs s)).
Proof.
  revert s. induction reqs as [|[[req utcnow] salt] reqs IH]; intros s; [done|].
  simpl. etrans; [apply (app_admins req s utcnow salt)|apply IH].
Qed.

(** No request the service is asked afterwards, as long as the uploads
    it takes are written inside the upload directory, takes an
    administrator's access away: credentials that authenticate keep
    authenticating as the same administrator, and a token that is accepted
    at some clock reading is accepted at that reading as before.  (An
    upload whose file name leads to the database file is outside the
    statement: what it leaves of the tables is not modelled.) *)
Theorem credentials_stable (reqs : list (request * datetime * string)) (s : Store) :
  Forall (λ r, inside_uploads r.1.1 = true) reqs →
  (∀ username password a,
     authenticate_admin username password (db s) = Some a →
     authenticate_admin username password (db (serve reqs s)) = Some a) ∧
  (∀ token utcnow a,
     get_current_admin token (db s) utcnow = inr a →
     get_current_admin token (db (serve reqs s)) utcnow = inr a).
Proof.
  intros _. pose proof (serve_admins reqs s) as Hprefix. split.
  - intros username password a. unfold authenticate_admin.
    destruct (first (filter _ (admins (db s)))) as [a'|] eqn:Hfirst; [|done].
    by rewrite (first_filter_prefix _ _ _ _ Hprefix Hfirst).
  - intros token utcnow a. unfold get_current_admin.
    destruct (jose.decode _ _ _ _) as [e|payload]; [by destruct (jose.JWTError e)|].
    cbv zeta.
    destruct (negb (truthy (payload !! "sub"))); [done|].
    destruct (first (filter _ (admins (db s)))) as [a'|] eqn:Hfirst; [|done].
    by rewrite (first_filter_prefix _ _ _ _ Hprefix Hfirst).
Qed.

(** ** Uniqueness of usernames and keys *)







(** ** What each route can change *)

(** A request whose upload, if it carries one, is written inside the
    upload directory changes the contact messages only when it is POST
    /contact/, the administrators only when it is POST /register-admin/,
    the projects only when it is POST, PUT or DELETE on /projects/, and
    the upload directory only when it is POST /projects/: a deleted
    project's file, in particular, stays. *)
Theorem route_frames (req : request) (s : Store) (utcnow : datetime) (salt : string) :
  inside_uploads req = true →
  let s' := (app req s utcnow salt).2 in
  (contact_messages (db s') ≠ contact_messages (db s) →
   ∃ contact, req = POST_contact contact) ∧
  (admins (db s') ≠ admins (db s) →
   ∃ admin_data, req = POST_register_admin admin_data) ∧
  (projects (db s') ≠ projects (db s) →
   (∃ title description image base_url,
      req = POST_projects title description image base_url) ∨
   (∃ project_id project authorization,
      req = PUT_project project_id project authorization) ∨
   (∃ project_id authorization, req = DELETE_project project_id authorization)) ∧
  (disk s' ≠ disk s →
   ∃ title description image base_url,
     req = POST_projects title description image base_url).
Proof.
  intros _. destruct req; cbn zeta.
  - by repeat split.
  - split; [eauto|]. by repeat split.
  - by repeat split.
  - split; [|split; [eauto|]]; simpl;
      unfold register_admin, add_Admin; by repeat case_match; simplify_eq.
  - simpl. destruct (empty username || empty password); by repeat split.
  - split; [|split; [|split; [eauto 10|eauto 10]]]; simpl;
      unfold create_project, add_Project; by repeat case_match; simplify_eq.
  - by repeat split.
  - by repeat split.
  - split; [|split; [|split; [eauto 10|]]]; simpl;
      destruct (depends_get_current_admin _ _ _); try done;
      unfold update_project, update_Project; by repeat case_match; simplify_eq.
  - split; [|split; [|split; [eauto 10|]]]; simpl;
      destruct (depends_get_current_admin _ _ _); try done;
      unfold delete_project, delete_Project; by repeat case_match; simplify_eq.
Qed.

End Tables.

Section Registration.
Context `{Env}.

Lemma register_admin_then_authenticate_aux (admin_data : AdminCreate) (d : DB)
  (salt : string) :
  (∀ a, a ∈ admins d → Admin.username a ≠ AdminCreate.username admin_data) →
  pwd_context_verify (AdminCreate.password admin_data)
    (pwd_context_hash salt (AdminCreate.password admin_data)) = true →
  let new_admin :=
    Admin.mk (next_rowid (Admin.id <$> admins d)) (AdminCreate.username admin_data)
      (pwd_context_hash salt (AdminCreate.password admin_data)) in
  let d' := mkDB (contact_messages d) (projects d) (admins d ++ [new_admin]) in
  register_admin admin_data d salt
    = (inr {["message" := "Admin created successfully"]}, d') ∧
  authenticate_admin (AdminCreate.username admin_data)
    (AdminCreate.password admin_data) d' = Some new_admin.
Proof.
  intros Hfree Hverify. cbv zeta. split.
  - unfold register_admin, add_Admin.
    rewrite (proj2 (first_filter_None
      (λ a, Admin.username a = AdminCreate.username admin_data) _)) by done.
    rewrite bool_decide_eq_false_2; [done|].
    intros (a & Hname & Hin)%list_elem_of_fmap. by apply (Hfree a).
  - unfold authenticate_admin. cbn [admins].
    rewrite filter_app, (filter_singleton_True _ _ []) by done.
    rewrite (proj1 (head_None _) (proj2 (first_filter_None
      (λ a, Admin.username a = AdminCreate.username admin_data) _) Hfree)).
    rewrite app_nil_l. unfold first. cbn [head Admin.password_hash]. by rewrite Hverify.
Qed.

(** Registration under a free username succeeds, without running into
    the uniqueness constraint: it stores one administrator more, under an
    id above those in use and with the hash of the password, and changes
    nothing else; the password context verifying what it hashed, the new
    credentials authenticate as that administrator. *)
Theorem register_admin_then_authenticate (admin_data : AdminCreate) (d : DB)
  (salt : string) :
  (∀ a, a ∈ admins d → Admin.username a ≠ AdminCreate.username admin_data) →
  pwd_context_verify (AdminCreate.password admin_data)
    (pwd_context_hash salt (AdminCreate.password admin_data)) = true →
  let new_admin :=
    Admin.mk (next_rowid (Admin.id <$> admins d)) (AdminCreate.username admin_data)
      (pwd_context_hash salt (AdminCreate.password admin_data)) in
  let d' := mkDB (contact_messages d) (projects d) (admins d ++ [new_admin]) in
  register_admin admin_data d salt
    = (inr {["message" := "Admin created successfully"]}, d') ∧
  authenticate_admin (AdminCreate.username admin_data)
    (AdminCreate.password admin_data) d' = Some new_admin ∧
  (∀ a, a ∈ admins d → a ∈ admins d' ∧ Admin.id a < Admin.id new_admin).
Proof.
  intros Hfree Hverify.
  destruct (register_admin_then_authenticate_aux admin_data d salt Hfree Hverify)
    as [Hregister Hauth].
  cbv zeta. split; [exact Hregister|]. split; [exact Hauth|].
  intros a Ha. cbn [admins Admin.id]. split.
  - apply elem_of_app. by left.
  - apply next_rowid_fresh. by apply list_elem_of_fmap_2.
Qed.

End Registration.

Section Projects.
Context `{Env}.

(** ** Reading projects *)

Lemma NoDup_fmap_key {A B : Type} (f : A → B) (rows : list A) (x y : A) :
  NoDup (f <$> rows) → x ∈ rows → y ∈ rows → f x = f y → x = y.
Proof.
  induction rows as [|z rows IH]; [by intros _ ?%elem_of_nil|].
  rewrite fmap_cons, NoDup_cons.
  intros [Hz Hrows] [->|Hx]%elem_of_cons [->|Hy]%elem_of_cons Hf; [done| | |by apply IH].
  - exfalso. apply Hz. rewrite Hf. by apply list_elem_of_fmap_2.
  - exfalso. apply Hz. rewrite <- Hf. by apply list_elem_of_fmap_2.
Qed.

(** [get_project] answers 404 exactly for the 64-bit ids no listed
    project has, and 500 exactly for the other ids no listed project has;
    and with ids a key, the projects [get_projects] lists are exactly
    those [get_project] returns under their id. *)
Theorem get_project_get_projects (d : DB) :
  (∀ project_id,
     get_project project_id d = raise (mkHTTPException 404 "Project not found") ↔
     (project_id ∉ Project.id <$> get_projects d) ∧ - 2 ^ 63 ≤ project_id < 2 ^ 63) ∧
  (∀ project_id,
     get_project project_id d = raise (mkHTTPException 500 "Internal Server Error") ↔
     (project_id ∉ Project.id <$> get_projects d) ∧ ¬ (- 2 ^ 63 ≤ project_id < 2 ^ 63)) ∧
  (NoDup (Project.id <$> projects d) →
   ∀ p, p ∈ get_projects d ↔ get_project (Project.id p) d = inr p).
Proof.
  unfold get_projects.
  assert (∀ project_id,
            first (filter (λ p, Project.id p = project_id) (projects d)) = None ↔
            project_id ∉ Project.id <$> projects d) as Habsent.
  { intros project_id. rewrite first_filter_None. split.
    - intros Hnone (p & -> & Hin)%list_elem_of_fmap. by apply (Hnone p).
    - intros Hno p Hin Hid. apply Hno. rewrite <- Hid. by apply list_elem_of_fmap_2. }
  assert (∀ project_id,
            sqlite_integer project_id = true ↔ - 2 ^ 63 ≤ project_id < 2 ^ 63) as Hrange.
  { intros project_id. unfold sqlite_integer. rewrite andb_true_iff. lia. }
  split; [|split].
  - intros project_id. rewrite <- Habsent, <- Hrange.
    destruct (first (filter _ (projects d))) as [p|] eqn:Hfirst.
    + rewrite (get_project_Some _ _ _ Hfirst). split; [done|]. by intros [? _].
    + rewrite (get_project_None _ _ Hfirst).
      destruct (sqlite_integer project_id); split; try done. by intros [_ ?].
  - intros project_id. rewrite <- Habsent, <- Hrange.
    destruct (first (filter _ (projects d))) as [p|] eqn:Hfirst.
    + rewrite (get_project_Some _ _ _ Hfirst). split; [done|]. by intros [? _].
    + rewrite (get_project_None _ _ Hfirst).
      destruct (sqlite_integer project_id); split; try done. by intros [_ ?].
  - intros Hkeys p. split.
    + intros Hin.
      destruct (first_filter_is_Some (λ q, Project.id q = Project.id p) _ p Hin eq_refl)
        as [q Hq].
      rewrite (get_project_Some _ _ _ Hq). apply first_filter_Some in Hq as [Hq Hid].
      f_equal. by apply (NoDup_fmap_key Project.id (projects d)).
    + unfold get_project. intros Hget.
      destruct (query_Project (Project.id p) d) as [e|[q|]] eqn:Hq; try done.
      injection Hget as ->. by apply query_Project_inv in Hq as [Hq _].
Qed.

(** ** Creating, updating and deleting *)

(** [update_project] answers 404 "Project not found" for a 64-bit id no
    project has and 500 for any other id no project has, and leaves the
    database as it was.  On the id of a stored project the three fields of
    the request replace its title, description and image URL, whatever
    they were, and the updated record is returned; a later [get_project]
    reads the same record. *)
Theorem update_project_outcomes (project_id : Z) (project : ProjectSchema) (d : DB)
  (admin : Admin) :
  let updated := Project.mk project_id (ProjectSchema.title project)
                   (ProjectSchema.description project)
                   (ProjectSchema.image_url project) in
  ((∀ p, p ∈ projects d → Project.id p ≠ project_id) →
   update_project project_id project d admin
     = (raise (if sqlite_integer project_id
               then mkHTTPException 404 "Project not found"
               else mkHTTPException 500 "Internal Server Error"), d)) ∧
  ((∃ p, p ∈ projects d ∧ Project.id p = project_id) →
   sqlite_integer project_id = true →
   ∃ d', update_project project_id project d admin = (inr updated, d') ∧
         get_project project_id d' = inr updated ∧
         ∀ p, p ∈ projects d' → Project.id p = project_id → p = updated).
Proof.
  intros updated. split; [apply update_project_missing|].
  intros (p0 & Hin & Hid) Hint. eexists. split; [by eapply update_project_found|].
  split.
  - apply get_project_Some. unfold update_Project. cbn [projects].
    rewrite first_filter_set_Project.
    destruct (first_filter_is_Some (λ p, Project.id p = project_id) _ p0 Hin Hid)
      as [q Hq].
    rewrite Hq. apply first_filter_Some in Hq as [_ Hq]. simpl.
    unfold set_Project. rewrite decide_True by done. by rewrite Hq.
  - intros p. unfold update_Project. cbn [projects].
    intros (q & -> & _)%list_elem_of_fmap. rewrite set_Project_id. intros Hq.
    unfold set_Project. rewrite decide_True by done. by rewrite Hq.
Qed.

(** [delete_project] on an id no project has answers 404 "Project not
    found" when the id is a 64-bit integer and 500 when it is not, and
    returns the database untouched; on the id of a stored project it
    succeeds, and the list [get_projects] then returns neither that
    project nor any project under that id. *)
Theorem delete_project_outcomes (project_id : Z) (d : DB) (admin : Admin) :
  ((∀ p, p ∈ projects d → Project.id p ≠ project_id) →
   delete_project project_id d admin
     = (raise (if sqlite_integer project_id
               then mkHTTPException 404 "Project not found"
               else mkHTTPException 500 "Internal Server Error"), d)) ∧
  (∀ p0, p0 ∈ projects d → Project.id p0 = project_id →
   sqlite_integer project_id = true →
   ∃ d', delete_project project_id d admin
           = (inr {["message" := "Project deleted successfully"]}, d') ∧
         (p0 ∉ get_projects d') ∧
         ∀ p, p ∈ get_projects d' → Project.id p ≠ project_id).
Proof.
  split; [apply delete_project_missing|].
  intros p0 Hin Hid Hint. eexists. split; [by eapply delete_project_found|].
  unfold get_projects, delete_Project. cbn [projects].
  split.
  - intros [Hne _]%list_elem_of_filter. done.
  - by intros p [Hne _]%list_elem_of_filter.
Qed.

(** For an accepted content type and a file name without path separator
    [create_project] first writes the bytes of the image under "uploads/"
    and the file name, whatever the form says otherwise; when that write
    fails it answers 500 and inserts no row, and when it goes through it
    appends one row, under a fresh id, to the projects and leaves the
    other tables alone. *)
Theorem create_project_file_then_row (title description : string) (image : UploadFile)
  (base_url : string) (s : Store) :
  UploadFile.content_type image = Some "image/png" ∨
  UploadFile.content_type image = Some "image/jpeg" ∨
  UploadFile.content_type image = Some "image/jpg" →
  plain_filename (UploadFile.filename image) = true →
  let written :=
    open_wb_write ("uploads/" +:+ UploadFile.filename image) (UploadFile.read image)
      (disk s) in
  let row :=
    Project.mk (next_rowid (Project.id <$> projects (db s))) title description
      (strip "/" base_url +:+ "/uploads/" +:+ UploadFile.filename image) in
  disk (create_project title description image base_url s).2 = written.1 ∧
  (written.2 = false →
   (create_project title description image base_url s).1
     = raise (mkHTTPException 500 "Internal Server Error") ∧
   db (create_project title description image base_url s).2 = db s) ∧
  (written.2 = true →
   (create_project title description image base_url s).1 = inr row ∧
   db (create_project title description image base_url s).2
     = mkDB (contact_messages (db s)) (projects (db s) ++ [row]) (admins (db s))).
Proof.
  intros Haccepted%not_in_allowed_types _. cbv zeta.
  rewrite create_project_valid by done.
  change (UPLOAD_DIR +:+ "/" +:+ UploadFile.filename image)
    with ("uploads/" +:+ UploadFile.filename image).
  destruct (open_wb_write _ _ _) as [disk' [|]]; cbn [fst snd];
    (split; [reflexivity|]); split; intros Hw; try discriminate Hw;
    split; reflexivity.
Qed.

(** Of two updates of one project the later wins: the answer and the
    stored rows are those of the later update alone. *)
Theorem update_project_last_write_wins (project_id : Z) (first_update second_update :
  ProjectSchema) (d : DB) (admin admin' : Admin) :
  update_project project_id second_update
    (update_project project_id first_update d admin).2 admin'
  = update_project project_id second_update d admin'.
Proof.
  destruct (first (filter (λ p, Project.id p = project_id) (projects d)))
    as [p0|] eqn:Hfirst.
  - destruct (sqlite_integer project_id) eqn:Hint.
    + apply first_filter_Some in Hfirst as [Hin Hid].
      rewrite (update_project_found project_id first_update d admin p0 Hin Hid Hint).
      rewrite (update_project_found project_id second_update d admin' p0 Hin Hid Hint).
      cbn [snd].
      erewrite (update_project_found project_id second_update _ admin'
        (set_Project project_id (ProjectSchema.title first_update)
           (ProjectSchema.description first_update)
           (ProjectSchema.image_url first_update) p0)).
      * f_equal. unfold update_Project. cbn [contact_messages projects admins]. f_equal.
        rewrite <- list_fmap_compose. apply list_fmap_ext. intros _ p _. cbn.
        unfold set_Project. repeat case_decide; simplify_eq/=; done.
      * unfold update_Project. cbn [projects]. by apply list_elem_of_fmap_2.
      * by rewrite set_Project_id.
      * done.
    + unfold update_project at 2. rewrite (query_Project_Some _ _ _ Hfirst).
      apply first_filter_Some in Hfirst as [_ ->]. by rewrite Hint.
  - rewrite first_filter_None in Hfirst.
    by rewrite (update_project_missing project_id first_update d admin Hfirst).
Qed.

(** Once [delete_project] has succeeded the id is gone: reading it,
    updating it and deleting it again all answer 404 "Project not found"
    and change nothing. *)
Theorem delete_project_then_missing (project_id : Z) (project : ProjectSchema) (d d' : DB)
  (admin admin' : Admin) (body : gmap string string) :
  delete_project project_id d admin = (inr body, d') →
  get_project project_id d' = raise (mkHTTPException 404 "Project not found") ∧
  update_project project_id project d' admin'
    = (raise (mkHTTPException 404 "Project not found"), d') ∧
  delete_project project_id d' admin'
    = (raise (mkHTTPException 404 "Project not found"), d').
Proof.
  unfold delete_project at 1.
  destruct (query_Project project_id d) as [e|[q|]] eqn:Hq; [done| |done].
  apply query_Project_inv in Hq as [_ ->].
  destruct (sqlite_integer project_id) eqn:Hint; simpl; [|done]. intros [= _ <-].
  assert (∀ p, p ∈ projects (delete_Project project_id d) →
               Project.id p ≠ project_id) as Hgone.
  { intros p. unfold delete_Project. cbn [projects].
    by intros [? _]%list_elem_of_filter. }
  split; [|split].
  - rewrite get_project_None, Hint; [done|].
    by apply (first_filter_None (λ p, Project.id p = project_id)).
  - by rewrite update_project_missing, Hint.
  - by rewrite delete_project_missing, Hint.
Qed.

End Projects.

Section Routes.
Context `{Env}.


(** POST /contact/ needs no token and always answers "Message received";
    an administrator who then lists the messages gets the earlier ones
    followed by the new one, stamped with the clock of its arrival. *)
Theorem contact_message_listed (contact : ContactForm) (authorization : option jwt)
  (s : Store) (utcnow later : datetime) (salt salt' : string) (admin : Admin) :
  depends_get_current_admin authorization (db s) later = inr admin →
  let posted := app (POST_contact contact) s utcnow salt in
  posted.1 = inr (JSON_dict {["message" := "Message received"]}) ∧
  (app (GET_contact authorization) posted.2 later salt').1
    = inr (JSON_messages
             (get_messages (db s) admin ++
              [MessageOut.mk (next_rowid (ContactMessage.id <$> contact_messages (db s)))
                 (ContactForm.name contact) (ContactForm.email contact)
                 (ContactForm.message contact) (strftime utcnow)])).
Proof.
  intros Hadmin. cbv zeta. split; [done|].
  cbn [app fst snd save_message db].
  assert (depends_get_current_admin authorization
            (add_ContactMessage (ContactForm.name contact) (ContactForm.email contact)
               (ContactForm.message contact) utcnow (db s)) later = inr admin) as ->.
  { rewrite <- Hadmin. by destruct authorization. }
  cbn [mbind result_bind mret result_ret]. unfold get_messages, add_ContactMessage.
  cbn [contact_messages]. by rewrite fmap_app.
Qed.

(** The row [save_message] stores takes its timestamp from the server's
    clock, the form contributing name, email and message only; and
    whatever requests the service then serves, every stored contact
    message stays in its place unchanged, as long as the uploads among
    them are written inside the upload directory.  (An upload whose file
    name leads to the database file is outside the statement: what it
    leaves of the tables is not modelled.) *)
Theorem contact_messages_kept :
  (∀ (contact : ContactForm) (d : DB) (utcnow : datetime),
     contact_messages (save_message contact d utcnow).2 =
       contact_messages d ++
       [ContactMessage.mk (next_rowid (ContactMessage.id <$> contact_messages d))
          (ContactForm.name contact) (ContactForm.email contact)
          (ContactForm.message contact) utcnow]) ∧
  (∀ (reqs : list (request * datetime * string)) (s : Store) (i : nat)
     (m : ContactMessage),
     Forall (λ r, inside_uploads r.1.1 = true) reqs →
     contact_messages (db s) !! i = Some m →
     contact_messages (db (serve reqs s)) !! i = Some m).
Proof.
  split; [done|].
  intros reqs s i m _ Hm.
  eapply prefix_lookup_Some; [done|apply serve_contact_messages].
Qed.

End Routes.

(** ** Slashes around the base URL *)

Lemma lstrip_idemp (c : ascii) (s : string) : lstrip c (lstrip c s) = lstrip c s.
Proof.
  induction s as [|a s IH]; [done|]. simpl.
  destruct (Ascii.eqb a c) eqn:Ha; [done|]. simpl. by rewrite Ha.
Qed.

Lemma rev_app_acc (s acc : string) : String.rev_app s acc = String.rev s +:+ acc.
Proof.
  unfold String.rev. revert acc. induction s as [|a s IH]; intros acc; [done|].
  simpl. rewrite (IH (String a acc)), (IH (String a "")).
  by rewrite app_assoc.
Qed.

Lemma lstrip_app_other (c a : ascii) (s : string) :
  Ascii.eqb a c = false → lstrip c (s +:+ String a "") = lstrip c s +:+ String a "".
Proof.
  intros Ha. induction s as [|b s IH]; [simpl; by rewrite Ha|].
  rewrite app_String. simpl. by destruct (Ascii.eqb b c).
Qed.

Lemma rstrip_String_other (c a : ascii) (s : string) :
  Ascii.eqb a c = false → rstrip c (String a s) = String a (rstrip c s).
Proof.
  intros Ha. unfold rstrip.
  assert (String.rev (String a s) = String.rev s +:+ String a "") as ->.
  { unfold String.rev at 1. simpl. apply rev_app_acc. }
  rewrite lstrip_app_other by done.
  unfold String.rev at 1. by rewrite rev_app_app.
Qed.

Lemma rstrip_idemp (c : ascii) (s : string) : rstrip c (rstrip c s) = rstrip c s.
Proof. unfold rstrip. by rewrite rev_involutive, lstrip_idemp. Qed.

Lemma lstrip_rstrip_lstrip (c : ascii) (s : string) :
  lstrip c (rstrip c (lstrip c s)) = rstrip c (lstrip c s).
Proof.
  induction s as [|a s IH]; [done|]. simpl.
  destruct (Ascii.eqb a c) eqn:Ha; [done|].
  rewrite rstrip_String_other by done. simpl. by rewrite Ha.
Qed.

Lemma strip_idemp (c : ascii) (s : string) : strip c (strip c s) = strip c s.
Proof. unfold strip. by rewrite lstrip_rstrip_lstrip, rstrip_idemp. Qed.

(** What [s.strip(c)] returns neither starts nor ends with [c], and
    stripping it again changes nothing; so the project [create_project]
    stores is the same whether the request's base URL comes with its
    slashes or already without them. *)
Theorem create_project_base_url_slashes `{Env} (title description : string)
  (image : UploadFile) (base_url : string) (s : Store) :
  lstrip "/" (strip "/" base_url) = strip "/" base_url ∧
  rstrip "/" (strip "/" base_url) = strip "/" base_url ∧
  create_project title description image (strip "/" base_url) s
  = create_project title description image base_url s.
Proof.
  split; [apply lstrip_rstrip_lstrip|]. split; [apply rstrip_idemp|].
  unfold create_project. by rewrite strip_idemp.
Qed.

(** A project that [create_project] creates from an upload with a plain
    file name comes under an id above every id in use, so it replaces
    nothing: under any other id [get_project] answers what it answered
    before. *)
Theorem create_project_keeps_others `{Env} (title description : string)
  (image : UploadFile) (base_url : string) (s s' : Store) (p : Project) :
  plain_filename (UploadFile.filename image) = true →
  create_project title description image base_url s = (inr p, s') →
  (∀ q, q ∈ projects (db s) → Project.id q < Project.id p) ∧
  (∀ project_id, project_id ≠ Project.id p →
     get_project project_id (db s') = get_project project_id (db s)).
Proof.
  intros _ Hcreate.
  destruct (not_in (UploadFile.content_type image) allowed_types) eqn:Hct.
  { by rewrite create_project_invalid in Hcreate. }
  rewrite create_project_valid in Hcreate by done.
  destruct (open_wb_write _ _ _).2; [|done].
  injection Hcreate as <- <-. cbn [add_Project fst snd db projects Project.id]. split.
  - intros q Hq. apply next_rowid_fresh. by apply list_elem_of_fmap_2.
  - intros project_id Hother. unfold get_project, query_Project. cbn [projects].
    rewrite filter_app, (filter_singleton_False _ _ []) by (cbn; congruence).
    by rewrite app_nil_r.
Qed.

(** ** From registration to an accepted token *)

(** Registered under a free, non-empty username, an administrator can log
    in with the password just set, and for the next 30 minutes the token
    of that login is accepted as this administrator's. *)
Theorem register_login_resolve `{Env} (admin_data : AdminCreate) (d : DB)
  (salt : string) (utcnow later : datetime) :
  (∀ a, a ∈ admins d → Admin.username a ≠ AdminCreate.username admin_data) →
  pwd_context_verify (AdminCreate.password admin_data)
    (pwd_context_hash salt (AdminCreate.password admin_data)) = true →
  AdminCreate.username admin_data ≠ "" →
  timegm later ≤ timegm utcnow + 1800 →
  ∃ body d' tok admin,
    register_admin admin_data d salt = (inr body, d') ∧
    login_admin (AdminCreate.username admin_data) (AdminCreate.password admin_data)
      d' utcnow = inr tok ∧
    get_current_admin (Token.access_token tok) d' later = inr admin ∧
    admin ∈ admins d' ∧
    Admin.username admin = AdminCreate.username admin_data.
Proof.
  intros Hfree Hverify Hname Hlater.
  destruct (register_admin_then_authenticate_aux admin_data d salt Hfree Hverify)
    as [Hregister Hauth].
  destruct (login_admin_authenticated _ _ _ utcnow _ Hauth) as [token Hlogin].
  destruct (login_token_resolves _ _ _ utcnow later _ Hlogin Hname)
    as (admin & Hadmin & Hresolved).
  { rewrite timegm_add_minutes. lia. }
  do 4 eexists. split; [exact Hregister|]. split; [exact Hlogin|].
  split; [exact Hresolved|].
  by apply authenticate_admin_Some in Hadmin as (_ & ? & ? & _).
Qed.

(** * The further properties in the concrete environment *)

Lemma example_token_subject :
  jose.claim "sub" example_token = Some (jose.JStr "admin").
Proof.
  destruct (get_current_admin_sound (H := example_env) example_token example_db 0
              example_admin) as (payload & _ & _ & Hsub & _).
  - vm_compute. reflexivity.
  - exact Hsub.
Defined.

Lemma example_token_lifetime :
  get_current_admin (H := example_env) example_token example_db 1800999999
    = inr example_admin ∧
  get_current_admin (H := example_env) example_token example_db 1801000000
    = raise (mkHTTPException 401 "Invalid authentication").
Proof.
  split.
  - apply (login_token_lifetime (H := example_env) "admin" "secret" example_db 0
             1800999999 (Token.mk example_token "bearer") example_admin).
    + vm_compute. reflexivity.
    + vm_compute. reflexivity.
    + discriminate.
    + vm_compute. discriminate.
  - apply (login_token_lifetime (H := example_env) "admin" "secret" example_db 0
             1801000000 (Token.mk example_token "bearer") example_admin).
    + vm_compute. reflexivity.
    + vm_compute. reflexivity.
    + discriminate.
    + vm_compute. reflexivity.
Defined.


Lemma empty_username_example :
  ∃ tok,
    login_admin (H := example_env) "" "secret"
      (mkDB [] [] [Admin.mk 1 "" "$2b$salt$secret"]) 0 = inr tok ∧
    get_current_admin (H := example_env) (Token.access_token tok)
      (mkDB [] [] [Admin.mk 1 "" "$2b$salt$secret"]) 0
    = raise (mkHTTPException 401 "Invalid authentication").
Proof.
  eexists. split; [vm_compute; reflexivity|].
  apply (empty_username_token_refused (H := example_env) "secret"
           (mkDB [] [] [Admin.mk 1 "" "$2b$salt$secret"]) 0 0).
  vm_compute. reflexivity.
Defined.

Lemma zero_duration_example :
  ∃ token,
    create_access_token (H := example_env) {["sub" := jose.PStr "admin"]} (Some 0) 0
      = Some token ∧
    jose.claim "exp" token = Some (jose.JNum 900) ∧
    jose.claim "sub" token = Some (jose.JStr "admin").
Proof.
  eexists. split; [vm_compute; reflexivity|].
  match goal with |- jose.claim _ ?token = _ ∧ _ =>
    assert (create_access_token (H := example_env) {["sub" := jose.PStr "admin"]}
              (Some 0) 0 = Some token) as Htoken by (vm_compute; reflexivity)
  end.
  destruct (create_access_token_claims (H := example_env) _ _ _ _ Htoken)
    as (Hexp & Hother & _).
  split; [exact Hexp|]. exact (Hother "sub" ltac:(discriminate)).
Defined.

Lemma credentials_stable_example :
  authenticate_admin (H := example_env) "admin" "secret"
    (db (serve (H := example_env)
           [(POST_register_admin (AdminCreate.mk "root" "toor"), 1000000, "salt");
            (POST_projects "Plan" "The plan" example_png "http://testserver/", 2000000, "");
            (DELETE_project 1 (Some example_token), 3000000, "")]
           example_store))
  = Some example_admin.
Proof.
  apply (proj1 (credentials_stable (H := example_env)
                  [(POST_register_admin (AdminCreate.mk "root" "toor"), 1000000, "salt");
                   (POST_projects "Plan" "The plan" example_png "http://testserver/",
                    2000000, "");
                   (DELETE_project 1 (Some example_token), 3000000, "")]
                  example_store ltac:(repeat constructor))).
  vm_compute. reflexivity.
Defined.



Lemma route_frames_example :
  projects (db (app (H := example_env)
                  (POST_contact (ContactForm.mk "Bob" "bob@example.org" "Hi"))
                  example_store 2000000 "").2)
  = projects (db example_store).
Proof.
  destruct (decide (projects (db (app (H := example_env)
                      (POST_contact (ContactForm.mk "Bob" "bob@example.org" "Hi"))
                      example_store 2000000 "").2)
                    = projects (db example_store))) as [Hsame|Hchanged]; [exact Hsame|].
  destruct (route_frames (H := example_env)
              (POST_contact (ContactForm.mk "Bob" "bob@example.org" "Hi"))
              example_store 2000000 "" eq_refl) as (_ & _ & Hprojects & _).
  destruct (Hprojects Hchanged)
    as [(? & ? & ? & ? & Hreq)|[(? & ? & ? & Hreq)|(? & ? & Hreq)]];
    discriminate Hreq.
Defined.

Lemma register_then_authenticate_example :
  authenticate_admin (H := example_env) "root" "toor"
    (mkDB [example_message] [example_project]
       [example_admin; Admin.mk 2 "root" "$2b$salt$toor"])
  = Some (Admin.mk 2 "root" "$2b$salt$toor").
Proof.
  apply (register_admin_then_authenticate (H := example_env)
           (AdminCreate.mk "root" "toor") example_db "salt").
  - intros a Ha. apply list_elem_of_singleton in Ha. rewrite Ha. discriminate.
  - vm_compute. reflexivity.
Defined.

Lemma register_twice_example :
  register_admin (H := example_env) (AdminCreate.mk "root" "other")
    (mkDB [example_message] [example_project]
       [example_admin; Admin.mk 2 "root" "$2b$salt$toor"]) "pepper"
  = (raise (mkHTTPException 400 "Admin already exists"),
     mkDB [example_message] [example_project]
       [example_admin; Admin.mk 2 "root" "$2b$salt$toor"]).
Proof.
  apply (register_admin_twice (H := example_env) (AdminCreate.mk "root" "toor")
           (AdminCreate.mk "root" "other") example_db _ "salt" "pepper"
           {["message" := "Admin created successfully"]}).
  - vm_compute. reflexivity.
  - reflexivity.
Defined.

Lemma create_project_file_example :
  disk (create_project (H := example_env) "Plan" "The plan" example_png
          "http://testserver/" example_store).2
  = <["uploads/plan.png" := []]> ∅.
Proof.
  apply (create_project_file_then_row (H := example_env) "Plan" "The plan" example_png
           "http://testserver/" example_store).
  - left. reflexivity.
  - reflexivity.
Defined.

Lemma update_project_example :
  ∃ d',
    update_project 1
      (ProjectSchema.mk "Bridge 2" "Rebuilt" "http://testserver/uploads/b2.png")
      example_db example_admin
    = (inr (Project.mk 1 "Bridge 2" "Rebuilt" "http://testserver/uploads/b2.png"), d') ∧
    get_project 1 d'
    = inr (Project.mk 1 "Bridge 2" "Rebuilt" "http://testserver/uploads/b2.png") ∧
    ∀ p, p ∈ projects d' → Project.id p = 1 →
         p = Project.mk 1 "Bridge 2" "Rebuilt" "http://testserver/uploads/b2.png".
Proof.
  apply (proj2 (update_project_outcomes 1
    (ProjectSchema.mk "Bridge 2" "Rebuilt" "http://testserver/uploads/b2.png")
    example_db example_admin)).
  - exists example_project. split; [left|reflexivity].
  - reflexivity.
Defined.

Lemma delete_project_example :
  ∃ d',
    delete_project 1 example_db example_admin
    = (inr {["message" := "Project deleted successfully"]}, d') ∧
    (example_project ∉ get_projects d') ∧
    ∀ p, p ∈ get_projects d' → Project.id p ≠ 1.
Proof.
  apply (proj2 (delete_project_outcomes 1 example_db example_admin)
           example_project).
  - left.
  - reflexivity.
  - reflexivity.
Defined.

Lemma delete_then_missing_example :
  get_project 1 (delete_project 1 example_db example_admin).2
  = raise (mkHTTPException 404 "Project not found").
Proof.
  apply (delete_project_then_missing 1 (ProjectSchema.mk "" "" "") example_db _
           example_admin example_admin {["message" := "Project deleted successfully"]}).
  vm_compute. reflexivity.
Defined.


Lemma contact_message_listed_example :
  (app (H := example_env) (GET_contact (Some example_token))
     (app (H := example_env) (POST_contact (ContactForm.mk "Bob" "bob@example.org" "Hi"))
        example_store 2000000 "").2 3000000 "").1
  = inr (JSON_messages
           [MessageOut.mk 1 "Ann" "ann@example.org" "Hello" "";
            MessageOut.mk 2 "Bob" "bob@example.org" "Hi" ""]).
Proof.
  apply (contact_message_listed (H := example_env)
           (ContactForm.mk "Bob" "bob@example.org" "Hi") (Some example_token)
           example_store 2000000 3000000 "" "" example_admin).
  vm_compute. reflexivity.
Defined.

Lemma contact_message_kept_example :
  contact_messages
    (db (serve (H := example_env)
           [(POST_contact (ContactForm.mk "Bob" "bob@example.org" "Hi"), 2000000, "");
            (DELETE_project 1 (Some example_token), 3000000, "");
            (POST_projects "Plan" "The plan" example_png "http://testserver/", 3500000, "");
            (POST_register_admin (AdminCreate.mk "root" "toor"), 4000000, "salt")]
           example_store)) !! 0%nat
  = Some example_message.
Proof.
  apply (proj2 (contact_messages_kept (H := example_env))).
  - repeat constructor.
  - reflexivity.
Defined.

Lemma create_project_keeps_others_example :
  ∃ p s',
    create_project (H := example_env) "Plan" "The plan" example_png
      "http://testserver/" example_store = (inr p, s') ∧
    get_project 1 (db s') = inr example_project.
Proof.
  eexists _, _. split; [vm_compute; reflexivity|].
  match goal with |- get_project _ (db ?s') = inr ?q =>
    assert (create_project (H := example_env) "Plan" "The plan" example_png
              "http://testserver/" example_store
            = (inr (Project.mk 2 "Plan" "The plan" "http://testserver/uploads/plan.png"),
               s')) as Hcreate by (vm_compute; reflexivity)
  end.
  rewrite (proj2 (create_project_keeps_others (H := example_env) _ _ example_png _ _ _ _
                    eq_refl Hcreate) 1)
    by discriminate.
  vm_compute. reflexivity.
Defined.

Lemma register_login_resolve_example :
  ∃ body d' tok admin,
    register_admin (H := example_env) (AdminCreate.mk "root" "toor") example_db "salt"
      = (inr body, d') ∧
    login_admin (H := example_env) "root" "toor" d' 0 = inr tok ∧
    get_current_admin (H := example_env) (Token.access_token tok) d' 1800000000
      = inr admin ∧
    admin ∈ admins d' ∧
    Admin.username admin = "root".
Proof.
  apply (register_login_resolve (H := example_env) (AdminCreate.mk "root" "toor")
           example_db "salt" 0 1800000000).
  - intros a Ha. apply list_elem_of_singleton in Ha. rewrite Ha. discriminate.
  - vm_compute. reflexivity.
  - discriminate.
  - vm_compute. discriminate.
Defined.
